(** * The Jupyter console of pyqt_code_editor: request tracking and routing

    A shallow embedding of [pyqt_code_editor/components/jupyter_console.py]:
    the three tracking structures of a [JupyterConsoleTab], the handler of
    the kernel's IOPub messages, the dispatch routines, the tabbed
    [JupyterConsole] and the workspace snippet that the tab sends to its
    kernel.  Python objects that the module shares with its callers (the
    [Future]s) live in a heap indexed by reference, so that a future can be
    observed after its request-id has left the tracking structures.

    What the kernel, the Qt widgets and the Python library do is taken as
    given: the id that [kernel_client.execute] answers with, the answer of
    [os.path.exists] and [json.loads] are inputs of the routines, and what
    a routine asks of its collaborators is recorded as a list of effects.
    The blocking wait of [execute_and_return_result], the kernel menu, the
    logging of the console's buttons and the styling of the widget are left
    out. *)

From Stdlib Require Import ZArith Ascii String.
From stdpp Require Import gmap strings list pretty.

Local Open Scope string_scope.
Local Open Scope list_scope.
Set Warnings "-clear-no-such-hyp".

(** ** Python values and strings *)

Module Py.

(** An exception object: its class name and [str(e)]. *)
Record pyexc := PyExc { exc_type : string; exc_str : string }.

(** The Python values the console handles: what [json.loads] can return,
    the raw text of a stream, [None], [{}], and the bindings of a kernel
    namespace.  A float carries its [repr]; an object of any other class
    carries what the workspace snippet may observe of it: the name of its
    class, its [repr], its [shape] attribute and its [len], where it has
    them. *)
#[warnings="-register-all"]
Inductive pyval :=
  | PNone
  | PBool (b : bool)
  | PInt (z : Z)
  | PFloat (repr : string)
  | PStr (s : string)
  | PList (items : list pyval)
  | PTuple (items : list pyval)
  | PDict (items : list (pyval * pyval))
  | PSet (items : list pyval)
  | PObject (type_name repr : string) (shape : option (list nat))
      (len : option nat).

(** A character of the model is a code point below 256.  [str.isspace] on
    those: TAB..CR, FS..US, space, NEL and NBSP. *)
Definition isspace (a : ascii) : bool :=
  let n := nat_of_ascii a in
  (((9 <=? n) && (n <=? 13)) || ((28 <=? n) && (n <=? 32))
   || (n =? 133) || (n =? 160))%nat.

Fixpoint lstrip_list (l : list ascii) : list ascii :=
  match l with
  | a :: l' => if isspace a then lstrip_list l' else l
  | [] => []
  end.

Definition rstrip_list (l : list ascii) : list ascii :=
  rev (lstrip_list (rev l)).

(** [s.strip()] *)
Definition strip (s : string) : string :=
  string_of_list_ascii (rstrip_list (lstrip_list (list_ascii_of_string s))).

(** Truth value of a [str] and of an optional [str] ([None] is false). *)
Definition str_truthy (s : string) : bool := negb (bool_decide (s = "")).

Definition opt_truthy (o : option string) : bool :=
  match o with
  | Some s => str_truthy s
  | None => false
  end.

(** [x in d] for a key that may be [None]: [None] is never stored. *)
Definition opt_in (o : option string) (s : gset string) : bool :=
  match o with
  | Some k => bool_decide (k ∈ s)
  | None => false
  end.

Definition newline : string := String "010"%char "".

(** [sep.join(lines)] *)
Fixpoint join (sep : string) (lines : list string) : string :=
  match lines with
  | [] => ""
  | [l] => l
  | l :: rest => (l ++ sep ++ join sep rest)%string
  end.

End Py.

Import Py.

(** ** Messages of the IOPub channel *)

(** The [content] dictionary of a message, with the keys the handler reads.
    A missing key is [None]; present keys have the types the kernel wire
    protocol gives them. *)
Record msg_content := MsgContent {
  text : option string;
  execution_state : option string;
  data : option (gmap string string);
  traceback : option (list string)
}.

Record msg_header := MsgHeader { msg_id : option string }.

Record kernel_msg := KernelMsg {
  msg_type : option string;
  content : option msg_content;
  parent_header : option msg_header
}.

(** The defaults of the handler's [dict.get] calls. *)
Definition empty_content : msg_content := MsgContent None None None None.
Definition empty_header : msg_header := MsgHeader None.

(** ** Futures *)

(** A [concurrent.futures.Future] as the console uses it: not yet done,
    done with a result, or done with an exception. *)
Inductive future :=
  | Pending
  | Result (v : pyval)
  | Exception (e : pyexc).

(** What [json.loads] does on a text: a value, [json.JSONDecodeError], or
    another exception (a [RecursionError] on deeply nested input). *)
Inductive loads_outcome :=
  | Loaded (v : pyval)
  | JSONDecodeError
  | Raised (e : pyexc).

(** ** Code sent to the kernel *)

(** The code strings the tab builds with f-strings, kept structured. *)
Inductive code :=
  | Source (src : string)
  | Workspace_query (result_var : string)
  | Run_file (filepath : string)
  | Chdir (directory : string).

(** ** What a routine does besides changing the tab *)

Inductive effect :=
  | Execution_complete (output : string) (c : msg_content)
  | QTimer_singleShot (msec : Z)
  | Original_iopub_handler (m : kernel_msg)
  | Logger_error (e : pyexc)
  | Kernel_client_execute (c : code) (silent store_history : bool)
  | Widget_execute (c : code)
  | Stop_channels
  | Manager_shutdown_kernel.

(** ** One console tab *)

Record JupyterConsoleTab := Tab {
  kernel_name : string;
  _pending_messages : gmap string nat;
  _internal_messages : gset string;
  _silent_messages : gset string;
  futures : list future;
  channels_running : bool;
  has_kernel : bool
}.

(** [JupyterConsoleTab.__init__]: empty tracking structures, a started
    kernel with running channels. *)
Definition JupyterConsoleTab_init (name : option string) : JupyterConsoleTab :=
  {| kernel_name := if opt_truthy name then default "" name else "python3";
     _pending_messages := ∅;
     _internal_messages := ∅;
     _silent_messages := ∅;
     futures := [];
     channels_running := true;
     has_kernel := true |}.

Definition with_futures (self : JupyterConsoleTab) (h : list future)
  : JupyterConsoleTab :=
  {| kernel_name := kernel_name self;
     _pending_messages := _pending_messages self;
     _internal_messages := _internal_messages self;
     _silent_messages := _silent_messages self;
     futures := h;
     channels_running := channels_running self;
     has_kernel := has_kernel self |}.

(** [future.done()] *)
Definition done (self : JupyterConsoleTab) (f : nat) : bool :=
  match futures self !! f with
  | Some Pending => false
  | _ => true
  end.

(** [future.set_result(v)] and [future.set_exception(e)], on a future that
    is not done. *)
Definition set_result (self : JupyterConsoleTab) (f : nat) (v : pyval)
  : JupyterConsoleTab :=
  with_futures self (<[f := Result v]> (futures self)).

Definition set_exception (self : JupyterConsoleTab) (f : nat) (e : pyexc)
  : JupyterConsoleTab :=
  with_futures self (<[f := Exception e]> (futures self)).

(** [_cleanup_message_ids] *)
Definition _cleanup_message_ids (self : JupyterConsoleTab) (mid : string)
  : JupyterConsoleTab :=
  {| kernel_name := kernel_name self;
     _pending_messages := delete mid (_pending_messages self);
     _internal_messages := _internal_messages self ∖ {[mid]};
     _silent_messages := _silent_messages self ∖ {[mid]};
     futures := futures self;
     channels_running := channels_running self;
     has_kernel := has_kernel self |}.

(** [_on_execution_complete], the slot the tab connects to its own
    [execution_complete] signal: a 100 ms single-shot timer on
    [update_workspace]. *)
Definition _on_execution_complete (output : string) (c : msg_content)
  : list effect :=
  [QTimer_singleShot 100].

(** [self.execution_complete.emit(output, content)]: the emission, then
    the connected slot. *)
Definition emit_execution_complete (output : string) (c : msg_content)
  : list effect :=
  Execution_complete output c :: _on_execution_complete output c.

Definition is_idle (mt : string) (c : msg_content) : bool :=
  bool_decide (mt = "status") && bool_decide (execution_state c = Some "idle").

Definition output_kind (mt : string) : bool :=
  bool_decide (mt = "execute_result") || bool_decide (mt = "display_data")
  || bool_decide (mt = "stream") || bool_decide (mt = "error").

Section Handler.

(** [json.loads] belongs to the Python library, not to this module. *)
Variable json_loads : string -> loads_outcome.

(** Lines 103-130: the message answers a tracked request. *)
Definition resolve_tracked (self : JupyterConsoleTab) (mt : string)
    (c : msg_content) (mid : option string)
  : JupyterConsoleTab * list effect :=
  match mid with
  | Some i =>
    match _pending_messages self !! i with
    | Some fut =>
      if bool_decide (mt = "stream") && bool_decide (is_Some (text c)) then
        if negb (done self fut) then
          let output := strip (default "" (text c)) in
          if str_truthy output then
            match json_loads output with
            | Loaded v => (set_result self fut v, [])
            | JSONDecodeError => (set_result self fut (PStr output), [])
            | Raised e => (set_exception self fut e, [Logger_error e])
            end
          else (self, [])
        else (self, [])
      else if is_idle mt c then
        let self' :=
          if negb (done self fut) then set_result self fut (PDict [])
          else self in
        (_cleanup_message_ids self' i, [])
      else (self, [])
    | None => (self, [])
    end
  | None => (self, [])
  end.

(** Lines 132-154: the [execution_complete] emissions.  [self] is the tab
    as the lines above left it; [is_silent] was computed before them. *)
Definition completion_signals (self : JupyterConsoleTab) (mt : string)
    (c : msg_content) (mid : option string) (is_silent : bool)
  : list effect :=
  if negb (opt_in mid (_internal_messages self)) then
    (if negb is_silent && is_idle mt c
     then emit_execution_complete "" empty_content else [])
    ++
    (if bool_decide (mt = "execute_result") then
       let text_output := default "" (default ∅ (data c) !! "text/plain") in
       emit_execution_complete text_output c
     else if bool_decide (mt = "stream") || bool_decide (mt = "display_data")
             || bool_decide (mt = "error") then
       let output :=
         if bool_decide (mt = "stream") then default "" (text c)
         else if bool_decide (mt = "display_data")
              then default "" (default ∅ (data c) !! "text/plain")
         else join newline (default [] (traceback c)) in
       emit_execution_complete output c
     else [])
  else [].

(** Lines 156-159: forwarding to the widget's own handler. *)
Definition forward (msg : kernel_msg) (mt : string) (is_silent : bool)
  : list effect :=
  if negb is_silent || negb (output_kind mt)
  then [Original_iopub_handler msg] else [].

(** [_handle_iopub_message] *)
Definition _handle_iopub_message (self : JupyterConsoleTab) (msg : kernel_msg)
  : JupyterConsoleTab * list effect :=
  let mt := default "" (msg_type msg) in
  let c := default empty_content (content msg) in
  let hdr := default empty_header (parent_header msg) in
  let mid := msg_id hdr in
  let is_silent := opt_in mid (_silent_messages self) in
  let '(self1, eff1) := resolve_tracked self mt c mid in
  (self1, eff1 ++ completion_signals self1 mt c mid is_silent
               ++ forward msg mt is_silent).

End Handler.

(** ** Dispatch *)

(** [kernel_client.execute] answers with a message id, or with nothing
    when the request could not be sent; [reply] is that answer. *)

(** [execute_silently] *)
Definition execute_silently (self : JupyterConsoleTab) (c : code)
    (internal hide_output : bool) (reply : option string)
  : JupyterConsoleTab * option string * list effect :=
  let self1 :=
    if opt_truthy reply then
      let i := default "" reply in
      {| kernel_name := kernel_name self;
         _pending_messages := _pending_messages self;
         _internal_messages :=
           if internal then _internal_messages self ∪ {[i]}
           else _internal_messages self;
         _silent_messages :=
           if hide_output then _silent_messages self ∪ {[i]}
           else _silent_messages self;
         futures := futures self;
         channels_running := channels_running self;
         has_kernel := has_kernel self |}
    else self in
  (self1, reply, [Kernel_client_execute c true false]).

(** [execute_and_get_future]: the new [Future] is allocated at the end of
    the heap and its reference is returned. *)
Definition execute_and_get_future (self : JupyterConsoleTab) (c : code)
    (reply : option string)
  : JupyterConsoleTab * nat * list effect :=
  let fut := length (futures self) in
  let self0 := with_futures self (futures self ++ [Pending]) in
  let '(self1, mid, eff) := execute_silently self0 c true true reply in
  if negb (opt_truthy mid) then
    (set_result self1 fut PNone, fut, eff)
  else
    ({| kernel_name := kernel_name self1;
        _pending_messages := <[default "" mid := fut]> (_pending_messages self1);
        _internal_messages := _internal_messages self1;
        _silent_messages := _silent_messages self1;
        futures := futures self1;
        channels_running := channels_running self1;
        has_kernel := has_kernel self1 |}, fut, eff).

(** [get_workspace_async]; [result_var] is the name drawn from [uuid4]. *)
Definition get_workspace_async (self : JupyterConsoleTab)
    (result_var : string) (reply : option string)
  : JupyterConsoleTab * nat * list effect :=
  execute_and_get_future self (Workspace_query result_var) reply.

(** [execute_code] goes through the widget and is not tracked. *)
Definition execute_code (self : JupyterConsoleTab) (c : code)
  : JupyterConsoleTab * list effect :=
  (self, [Widget_execute c]).

(** [execute_file] *)
Definition execute_file (self : JupyterConsoleTab) (filepath : string)
  : JupyterConsoleTab * list effect :=
  execute_code self (Run_file filepath).

(** [change_directory]; [path_exists] is the answer of [os.path.exists]. *)
Definition change_directory (self : JupyterConsoleTab) (directory : string)
    (path_exists : bool) (reply : option string)
  : JupyterConsoleTab * bool * list effect :=
  if path_exists then
    let '(self1, _, eff) :=
      execute_silently self (Chdir directory) false true reply in
    (self1, true, eff)
  else (self, false, []).

(** [shutdown_kernel] *)
Definition shutdown_kernel (self : JupyterConsoleTab)
  : JupyterConsoleTab * list effect :=
  ({| kernel_name := kernel_name self;
      _pending_messages := _pending_messages self;
      _internal_messages := _internal_messages self;
      _silent_messages := _silent_messages self;
      futures := futures self;
      channels_running := false;
      has_kernel := false |}, [Stop_channels; Manager_shutdown_kernel]).

(** ** Runs of a tab *)

(** The calls a tab receives: from its callers, and from the event loop
    that delivers the kernel's messages one at a time. *)
Inductive call :=
  | Execute_code (c : code)
  | Execute_file (filepath : string)
  | Execute_silently (c : code) (internal hide_output : bool)
      (reply : option string)
  | Execute_and_get_future (c : code) (reply : option string)
  | Get_workspace_async (result_var : string) (reply : option string)
  | Change_directory (directory : string) (path_exists : bool)
      (reply : option string)
  | Handle_iopub_message (msg : kernel_msg).

Section Runs.

Variable json_loads : string -> loads_outcome.

Definition step (self : JupyterConsoleTab) (k : call)
  : JupyterConsoleTab * list effect :=
  match k with
  | Execute_code c => execute_code self c
  | Execute_file p => execute_file self p
  | Execute_silently c internal hide reply =>
      let '(self1, _, eff) := execute_silently self c internal hide reply in
      (self1, eff)
  | Execute_and_get_future c reply =>
      let '(self1, _, eff) := execute_and_get_future self c reply in
      (self1, eff)
  | Get_workspace_async v reply =>
      let '(self1, _, eff) := get_workspace_async self v reply in
      (self1, eff)
  | Change_directory d e reply =>
      let '(self1, _, eff) := change_directory self d e reply in
      (self1, eff)
  | Handle_iopub_message msg => _handle_iopub_message json_loads self msg
  end.

(** The tab after a list of calls, oldest first. *)
Definition run (self : JupyterConsoleTab) (ks : list call) : JupyterConsoleTab :=
  fold_left (fun s k => fst (step s k)) ks self.

(** The tabs a session can be in: a new tab, then any calls. *)
Inductive reachable : JupyterConsoleTab -> Prop :=
  | reachable_init name : reachable (JupyterConsoleTab_init name)
  | reachable_step self k :
      reachable self -> reachable (fst (step self k)).

End Runs.

(** ** The tabbed console *)

(** The [JupyterConsole] dock: its default kernel and the pages of its tab
    widget in tab order.  [removeTab] takes a page out of the tab widget
    and does not delete it; [removed] keeps those pages, oldest first.
    The tab widget is the list of its pages and no more: the signals it
    raises by itself when its current page changes reach the console as
    calls of their own ([_on_tab_changed]) and are no part of the routines
    below. *)
Record JupyterConsole := Console {
  default_kernel : string;
  tab_widget : list JupyterConsoleTab;
  removed : list JupyterConsoleTab
}.

(** What a routine of the console does to its pages. *)
Inductive console_event :=
  | Shutdown_kernel (page : JupyterConsoleTab) (eff : list effect)
  | Created (page : JupyterConsoleTab).

(** [add_console_tab] *)
Definition add_console_tab (self : JupyterConsole) (name : string)
  : JupyterConsole * JupyterConsoleTab * list console_event :=
  let console_tab := JupyterConsoleTab_init (Some name) in
  ({| default_kernel := default_kernel self;
      tab_widget := tab_widget self ++ [console_tab];
      removed := removed self |}, console_tab, [Created console_tab]).

(** [JupyterConsole.__init__] *)
Definition JupyterConsole_init (default : string) : JupyterConsole :=
  (add_console_tab (Console default [] []) default).1.1.

(** [tab_widget.widget(index)]: [None] outside the range of pages. *)
Definition widget (self : JupyterConsole) (index : Z) : option JupyterConsoleTab :=
  if (0 <=? index)%Z then tab_widget self !! Z.to_nat index else None.

(** [close_tab] *)
Definition close_tab (self : JupyterConsole) (index : Z)
  : JupyterConsole * list console_event :=
  match widget self index with
  | Some page =>
      let '(page1, eff) := shutdown_kernel page in
      let self1 :=
        {| default_kernel := default_kernel self;
           tab_widget := delete (Z.to_nat index) (tab_widget self);
           removed := removed self ++ [page1] |} in
      if bool_decide (length (tab_widget self1) = 0) then
        let '(self2, _, log) := add_console_tab self1 (default_kernel self1) in
        (self2, Shutdown_kernel page eff :: log)
      else (self1, [Shutdown_kernel page eff])
  | None => (self, [])
  end.


(** * The workspace snippet *)

(** The code that [get_workspace_async] sends: it runs in the kernel, over
    the bindings of the user's namespace, and prints a mapping from each
    name it keeps to the name of the value's type and a preview. *)

Module Workspace.

(** A value, or the exception raised instead. *)
Inductive raises (A : Type) :=
  | Returns (a : A)
  | Raises (e : pyexc).
Arguments Returns {A} a.
Arguments Raises {A} e.

(** Sequencing that stops at the first exception, under stdpp's
    [x ← m; k]. *)
#[export] Instance raises_bind : MBind raises := λ A B k m,
  match m with
  | Returns a => k a
  | Raises e => Raises e
  end.

(** *** What the snippet asks of a value *)

(** [type(v).__name__] *)
Definition type_name (v : pyval) : string :=
  match v with
  | PNone => "NoneType"
  | PBool _ => "bool"
  | PInt _ => "int"
  | PFloat _ => "float"
  | PStr _ => "str"
  | PList _ => "list"
  | PTuple _ => "tuple"
  | PDict _ => "dict"
  | PSet _ => "set"
  | PObject ty _ _ _ => ty
  end.

Definition squote : ascii := "'"%char.
Definition dquote : ascii := ascii_of_nat 34.
Definition backslash : ascii := "\"%char.

Definition hex_digit (n : nat) : ascii :=
  default "0"%char (String.get n "0123456789abcdef").

Definition hex2 (n : nat) : string :=
  String (hex_digit (n / 16)) (String (hex_digit (n mod 16)) "").

(** [str.isprintable] on the code points below 256. *)
Definition isprintable (a : ascii) : bool :=
  let n := nat_of_ascii a in
  (((32 <=? n) && (n <? 127)) || ((161 <=? n) && negb (n =? 173)))%nat.

Definition repr_char (quote a : ascii) : string :=
  let n := nat_of_ascii a in
  if Ascii.eqb a quote || Ascii.eqb a backslash
  then String backslash (String a "")
  else if (n =? 9)%nat then "\t"
  else if (n =? 10)%nat then "\n"
  else if (n =? 13)%nat then "\r"
  else if isprintable a then String a ""
  else ("\x" ++ hex2 n)%string.

(** [repr] of a [str]: double quotes only when the text has a single
    quote and no double quote. *)
Definition repr_str (s : string) : string :=
  let l := list_ascii_of_string s in
  let quote :=
    if existsb (Ascii.eqb squote) l && negb (existsb (Ascii.eqb dquote) l)
    then dquote else squote in
  String quote (String.concat "" (map (repr_char quote) l)
                ++ String quote "")%string.

(** [repr(v)]; an integer is written in full, which is what Python does
    below its limit on the digits of a converted integer. *)
Fixpoint repr (v : pyval) : string :=
  match v with
  | PNone => "None"
  | PBool b => if b then "True" else "False"
  | PInt z => pretty z
  | PFloat r => r
  | PStr s => repr_str s
  | PList items => ("[" ++ join ", " (map repr items) ++ "]")%string
  | PTuple items =>
      match items with
      | [x] => ("(" ++ repr x ++ ",)")%string
      | _ => ("(" ++ join ", " (map repr items) ++ ")")%string
      end
  | PDict items =>
      ("{" ++ join ", "
                (map (λ '(k, x), (repr k ++ ": " ++ repr x)%string) items)
           ++ "}")%string
  | PSet items =>
      match items with
      | [] => "set()"
      | _ => ("{" ++ join ", " (map repr items) ++ "}")%string
      end
  | PObject _ r _ _ => r
  end.

Definition NameError (name : string) : pyexc :=
  PyExc "NameError" ("name '" ++ name ++ "' is not defined")%string.

Definition no_len (ty : string) : pyexc :=
  PyExc "TypeError" ("object of type '" ++ ty ++ "' has no len()")%string.

Definition no_attribute (ty attr : string) : pyexc :=
  PyExc "AttributeError"
    ("'" ++ ty ++ "' object has no attribute '" ++ attr ++ "'")%string.

Definition index_out_of_range : pyexc :=
  PyExc "IndexError" "tuple index out of range".

(** [len(v)] *)
Definition len (v : pyval) : raises nat :=
  match v with
  | PStr s => Returns (String.length s)
  | PList items | PTuple items | PSet items => Returns (length items)
  | PDict items => Returns (length items)
  | PObject ty _ _ (Some n) => Returns n
  | _ => Raises (no_len (type_name v))
  end.

(** [v.shape] *)
Definition shape (v : pyval) : raises (list nat) :=
  match v with
  | PObject _ _ (Some sh) _ => Returns sh
  | _ => Raises (no_attribute (type_name v) "shape")
  end.

(** [sh[i]] on a tuple *)
Definition item (sh : list nat) (i : nat) : raises nat :=
  match sh !! i with
  | Some n => Returns n
  | None => Raises index_out_of_range
  end.

(** [str] of a tuple of integers *)
Definition str_tuple (sh : list nat) : string :=
  match sh with
  | [n] => ("(" ++ pretty n ++ ",)")%string
  | _ => ("(" ++ join ", " (map pretty sh) ++ ")")%string
  end.

(** The multiplication sign of the [DataFrame] preview. *)
Definition times : string := String (ascii_of_nat 215) "".

Definition one_of (s : string) (l : list string) : bool := bool_decide (s ∈ l).

(** *** The loop of the snippet *)

(** One entry of the mapping the snippet prints. *)
Record entry := Entry { entry_type : string; entry_preview : string }.

Section Snippet.

(** [v[:47] + '...'] on a value [v] that is not a [str]: what it returns
    or raises is the business of the value's class. *)
Variable slice_concat : pyval → raises pyval.

(** The name drawn for the result of this query. *)
Variable result_var : string.

(** The test that skips a binding by its name. *)
Definition skipped_name (name : string) : bool :=
  String.prefix "_" name || bool_decide (name = result_var)
  || one_of name ["quit"; "exit"; "In"; "Out"; "get_ipython"].

(** The body of the [try]: the preview of a value of type [ty], and the
    binding of the global [preview] afterwards.  [bound] is what the name
    [preview] is bound to in the namespace, if anything: the snippet keeps
    its own preview under [__preview], and the branch of the simple types
    reads and assigns [preview]. *)
Definition try_preview (bound : option pyval) (ty : string) (v : pyval)
  : raises (string * option pyval) :=
  if bool_decide (ty = "DataMatrix") then
    sh ← shape v; Returns (("DataMatrix: " ++ str_tuple sh)%string, bound)
  else if bool_decide (ty = "DataFrame") then
    sh ← shape v; r ← item sh 0; c ← item sh 1;
    Returns (("DataFrame: " ++ pretty r ++ times ++ pretty c)%string, bound)
  else if bool_decide (ty = "Series") then
    n ← len v; Returns (("Series: " ++ pretty n)%string, bound)
  else if bool_decide (ty = "ndarray") then
    sh ← shape v; Returns (("Array: " ++ str_tuple sh)%string, bound)
  else if one_of ty ["list"; "tuple"; "dict"; "set"] then
    n ← len v; Returns ((ty ++ "[" ++ pretty n ++ "]")%string, bound)
  else if one_of ty ["str"; "int"; "float"; "bool"] then
    let __preview := repr v in
    if (50 <? String.length __preview)%nat then
      match bound with
      | None => Raises (NameError "preview")
      | Some (PStr p) =>
          Returns (__preview, Some (PStr (substring 0 47 p ++ "...")%string))
      | Some other =>
          p ← slice_concat other; Returns (__preview, Some p)
      end
    else Returns (__preview, bound)
  else Returns ((ty ++ " object")%string, bound).

(** One turn of the loop over the bindings: the entries so far and the
    binding of [preview], before and after. *)
Definition visit (acc : list (string * entry) * option pyval)
    (binding : string * pyval) : list (string * entry) * option pyval :=
  let '(result, bound) := acc in
  let '(__var_name, __var_value) := binding in
  if skipped_name __var_name then acc
  else
    let __var_type := type_name __var_value in
    if one_of __var_type ["module"; "function"; "type"] then acc
    else
      match try_preview bound __var_type __var_value with
      | Returns (__preview, bound1) =>
          (result ++ [(__var_name, Entry __var_type __preview)], bound1)
      | Raises e =>
          (result ++ [(__var_name,
                       Entry __var_type
                         ("<Error: " ++ exc_str e ++ ">")%string)], bound)
      end.

(** The mapping the snippet prints for a namespace, given as its bindings
    in order, each name once. *)
Definition workspace (globals : list (string * pyval))
  : list (string * entry) :=
  (fold_left visit globals
     ([], (list_to_map globals : gmap string pyval) !! "preview")).1.

End Snippet.

(** An object that cannot be subscripted. *)
Definition not_subscriptable (v : pyval) : raises pyval :=
  Raises (PyExc "TypeError"
            ("'" ++ type_name v ++ "' object is not subscriptable")%string).

(** The preview the documentation of the branch describes: the [repr],
    cut to 47 characters and three dots when it is longer than 50. *)
Definition truncated_repr (v : pyval) : string :=
  if (50 <? String.length (repr v))%nat
  then (substring 0 47 (repr v) ++ "...")%string
  else repr v.

Definition sixty_a : string :=
  "aaaaaaaaaaaaaaaaaaaaaaaaaaaaaaaaaaaaaaaaaaaaaaaaaaaaaaaaaaaa".

End Workspace.

(** * The rest of the console *)

(** ** Interrupting and restarting the kernel *)

(** What [interrupt_kernel] and [restart_kernel] ask for, besides a line
    in the log. *)
Inductive kernel_request :=
  | Manager_interrupt_kernel
  | Widget_request_restart_kernel.

(** [interrupt_kernel] *)
Definition interrupt_kernel (self : JupyterConsoleTab)
  : JupyterConsoleTab * bool * list kernel_request :=
  if has_kernel self then (self, true, [Manager_interrupt_kernel])
  else (self, false, []).

(** [restart_kernel] *)
Definition restart_kernel (self : JupyterConsoleTab)
  : JupyterConsoleTab * bool * list kernel_request :=
  if has_kernel self then (self, true, [Widget_request_restart_kernel])
  else (self, false, []).

(** ** Refreshing the workspace *)

(** What a refresh does besides the query: the [workspace_updated] signal
    and the two lines of the log. *)
Inductive workspace_effect :=
  | Workspace_updated (d : pyval)
  | Log_workspace_updated
  | Log_error_updating (e : pyexc).

Section Refresh.

Variable json_loads : string -> loads_outcome.

(** [workspace_updated] is declared as [Signal(dict)].  Emitting a dict
    delivers it; what emitting any other value does is up to the Qt
    binding: it delivers the value ([None]) or raises. *)
Variable emit_other : pyval → option pyexc.

Definition emit_workspace_updated (d : pyval) : option pyexc :=
  match d with
  | PDict _ => None
  | _ => emit_other d
  end.

(** [_on_workspace_update_complete], the done-callback of a refresh.  A
    callback is called with a future that is done. *)
Definition _on_workspace_update_complete (f : future)
  : list workspace_effect :=
  match f with
  | Result workspace_data =>
      Log_workspace_updated ::
      match emit_workspace_updated workspace_data with
      | None => [Workspace_updated workspace_data]
      | Some e => [Log_error_updating e; Workspace_updated (PDict [])]
      end
  | Exception e => [Log_error_updating e; Workspace_updated (PDict [])]
  | Pending => []
  end.

(** [update_workspace]: the query, then [add_done_callback], which calls
    the callback at once when the future is done already.  Besides the
    tab: the reference of the future, what was asked of the kernel, and
    what the callback did at once. *)
Definition update_workspace (self : JupyterConsoleTab) (result_var : string)
    (reply : option string)
  : JupyterConsoleTab * nat * list effect * list workspace_effect :=
  let '(self1, fut, eff) := get_workspace_async self result_var reply in
  (self1, fut, eff,
   if done self1 fut
   then _on_workspace_update_complete (default Pending (futures self1 !! fut))
   else []).

(** A tab together with the futures of its refreshes that are not done:
    the ones whose done-callback is still to be called. *)
Record watched_tab := Watched {
  the_tab : JupyterConsoleTab;
  awaiting : list nat
}.

(** [update_workspace] on a watched tab. *)
Definition refresh (w : watched_tab) (result_var : string)
    (reply : option string)
  : watched_tab * list effect * list workspace_effect :=
  let '(self1, fut, eff, weff) :=
    update_workspace (the_tab w) result_var reply in
  (Watched self1 (if done self1 fut then awaiting w else awaiting w ++ [fut]),
   eff, weff).

(** The delivery of a message to a watched tab: the handler, and the
    callbacks of the futures that it completed, which [set_result] and
    [set_exception] call. *)
Definition deliver (w : watched_tab) (msg : kernel_msg)
  : watched_tab * list effect * list workspace_effect :=
  let '(self1, eff) := _handle_iopub_message json_loads (the_tab w) msg in
  (Watched self1 (List.filter (λ f, negb (done self1 f)) (awaiting w)),
   eff,
   List.filter (done self1) (awaiting w)
     ≫= λ f, _on_workspace_update_complete
               (default Pending (futures self1 !! f))).

End Refresh.

(** ** The console on its current page *)

(** The routines of [JupyterConsole] that act on the current page.
    [current] is the current index that the tab widget holds. *)
Module Dock.

(** [get_current_console] *)
Definition get_current_console (self : JupyterConsole) (current : Z)
  : option JupyterConsoleTab :=
  widget self current.

(** The console after a routine changed the page at [index]. *)
Definition with_page (self : JupyterConsole) (index : Z)
    (page : JupyterConsoleTab) : JupyterConsole :=
  {| default_kernel := default_kernel self;
     tab_widget := <[Z.to_nat index := page]> (tab_widget self);
     removed := removed self |}.

(** [JupyterConsole.execute_file] *)
Definition execute_file (self : JupyterConsole) (current : Z)
    (filepath : string) : JupyterConsole * list effect :=
  match get_current_console self current with
  | Some console =>
      let '(console1, eff) := execute_file console filepath in
      (with_page self current console1, eff)
  | None => (self, [])
  end.

(** [JupyterConsole.change_directory] *)
Definition change_directory (self : JupyterConsole) (current : Z)
    (directory : string) (path_exists : bool) (reply : option string)
  : JupyterConsole * bool * list effect :=
  match get_current_console self current with
  | Some console =>
      let '(console1, ok, eff) :=
        change_directory console directory path_exists reply in
      (with_page self current console1, ok, eff)
  | None => (self, false, [])
  end.

(** [JupyterConsole.execute_code] *)
Definition execute_code (self : JupyterConsole) (current : Z) (c : code)
    (silent : bool) (reply : option string) : JupyterConsole * list effect :=
  match get_current_console self current with
  | Some console =>
      if silent then
        let '(console1, _, eff) :=
          execute_silently console c false true reply in
        (with_page self current console1, eff)
      else
        let '(console1, eff) := execute_code console c in
        (with_page self current console1, eff)
  | None => (self, [])
  end.

Definition no_update_workspace : pyexc :=
  PyExc "AttributeError"
    "'NoneType' object has no attribute 'update_workspace'".

(** [_on_tab_changed], the slot of the tab widget's [currentChanged]. *)
Definition _on_tab_changed (emit_other : pyval → option pyexc)
    (self : JupyterConsole) (index : Z) (result_var : string)
    (reply : option string)
  : Workspace.raises (JupyterConsole * list effect * list workspace_effect) :=
  match widget self index with
  | Some console_tab =>
      let '(console_tab1, _, eff, weff) :=
        update_workspace emit_other console_tab result_var reply in
      Workspace.Returns (with_page self index console_tab1, eff, weff)
  | None => Workspace.Raises no_update_workspace
  end.

End Dock.

(** ** Runs of the console *)




(** * The vocabulary of the properties *)

(** The correlation id, the kind and the content of a message, as the
    handler reads them. *)
Definition correlation_id (msg : kernel_msg) : option string :=
  msg_id (default empty_header (parent_header msg)).

Definition kind (msg : kernel_msg) : string := default "" (msg_type msg).

Definition payload (msg : kernel_msg) : msg_content :=
  default empty_content (content msg).

(** Every key of [_pending_messages] is in both sets. *)
Definition pending_flagged (self : JupyterConsoleTab) : Prop :=
  ∀ i, is_Some (_pending_messages self !! i) →
       i ∈ _internal_messages self ∧ i ∈ _silent_messages self.

(** An id that is not a key of [_pending_messages] is in neither set. *)
Definition no_residue (self : JupyterConsoleTab) : Prop :=
  ∀ i, _pending_messages self !! i = None →
       (i ∉ _internal_messages self) ∧ (i ∉ _silent_messages self).

(** The condition of lines 132-154, on the tab as the handler finds it. *)
Definition completes (self : JupyterConsoleTab) (msg : kernel_msg) : Prop :=
  opt_in (correlation_id msg) (_internal_messages self) = false ∧
  ((opt_in (correlation_id msg) (_silent_messages self) = false ∧
    is_idle (kind msg) (payload msg) = true)
   ∨ output_kind (kind msg) = true).

(** The message answers a request that the tab holds as internal, or as
    silent, when the message arrives. *)
Definition internal_request (self : JupyterConsoleTab) (msg : kernel_msg) : Prop :=
  ∃ i, correlation_id msg = Some i ∧ i ∈ _internal_messages self.

Definition silent_request (self : JupyterConsoleTab) (msg : kernel_msg) : Prop :=
  ∃ i, correlation_id msg = Some i ∧ i ∈ _silent_messages self.

(** A status message that reports the idle state. *)
Definition idle_status (msg : kernel_msg) : Prop :=
  kind msg = "status" ∧ execution_state (payload msg) = Some "idle".

(** The kinds of message that carry output. *)
Definition output_bearing (msg : kernel_msg) : Prop :=
  kind msg ∈ ["execute_result"; "display_data"; "stream"; "error"].

(** The tab after a request sent with [execute_silently]. *)
Definition sent_silently (self : JupyterConsoleTab) (c : code)
    (internal hide_output : bool) (reply : option string) : JupyterConsoleTab :=
  (execute_silently self c internal hide_output reply).1.1.

(** The calls that flag an id and register no future for it: a direct
    [execute_silently] that is answered and sets one of its flags, and a
    [change_directory] on an existing path that is answered. *)
Definition flags_untracked (k : call) : bool :=
  match k with
  | Execute_silently _ internal hide_output reply =>
      opt_truthy reply && (internal || hide_output)
  | Change_directory _ path_exists reply => path_exists && opt_truthy reply
  | _ => false
  end.

(** A stream message for [i] whose text is empty once stripped. *)
Definition blank_stream (i : string) (msg : kernel_msg) : Prop :=
  kind msg = "stream" ∧ correlation_id msg = Some i ∧
  ∃ t, text (payload msg) = Some t ∧ strip t = "".

(** ** A stand-in for [json.loads]

    Used where an example needs a concrete parser: it reads the literals
    [null], [true], [false], the empty containers and decimal integers, and
    reports every other text as a decode error.  The examples below only
    give it texts on which [json.loads] answers the same. *)

Definition digit_of (a : ascii) : option Z :=
  let n := nat_of_ascii a in
  if ((48 <=? n) && (n <=? 57))%nat then Some (Z.of_nat n - 48)%Z else None.

Fixpoint digits_value (acc : Z) (l : list ascii) : option Z :=
  match l with
  | [] => Some acc
  | a :: l' =>
      match digit_of a with
      | Some d => digits_value (10 * acc + d)%Z l'
      | None => None
      end
  end.

Definition integer_literal (s : string) : option Z :=
  match list_ascii_of_string s with
  | [] => None
  | "-"%char :: [] => None
  | "-"%char :: "0"%char :: _ :: _ => None
  | "-"%char :: l => Z.opp <$> digits_value 0 l
  | "0"%char :: _ :: _ => None
  | l => digits_value 0 l
  end.

Definition loads_atoms (s : string) : loads_outcome :=
  if bool_decide (s = "null") then Loaded PNone
  else if bool_decide (s = "true") then Loaded (PBool true)
  else if bool_decide (s = "false") then Loaded (PBool false)
  else if bool_decide (s = "{}") then Loaded (PDict [])
  else if bool_decide (s = "[]") then Loaded (PList [])
  else match integer_literal s with
       | Some z => Loaded (PInt z)
       | None => JSONDecodeError
       end.

(** ** Concrete tabs and messages for the examples *)

Definition fresh_tab : JupyterConsoleTab := JupyterConsoleTab_init None.

Definition stream_msg (i t : string) : kernel_msg :=
  KernelMsg (Some "stream") (Some (MsgContent (Some t) None None None))
    (Some (MsgHeader (Some i))).

Definition idle_msg (i : string) : kernel_msg :=
  KernelMsg (Some "status") (Some (MsgContent None (Some "idle") None None))
    (Some (MsgHeader (Some i))).

(** A tab whose only request is a workspace query answered with [m1]. *)
Definition querying_tab : JupyterConsoleTab :=
  (get_workspace_async fresh_tab "_workspace_data_0a1b2c3d" (Some "m1")).1.1.

(** A tab whose only request is a [change_directory] answered with [m1]. *)
Definition chdir_tab : JupyterConsoleTab :=
  (change_directory fresh_tab "/tmp" true (Some "m1")).1.1.

(** A tab whose only request is an [execute_silently] with its default
    flags, as [JupyterConsole.execute_code] sends with [silent=True]. *)
Definition silent_tab : JupyterConsoleTab :=
  sent_silently fresh_tab (Source "print(1)") false true (Some "m1").

(** ** What a list of effects holds *)

(** The [execution_complete] emissions, the timers and the messages passed
    on to the widget, in order. *)
Definition emissions (effs : list effect) : list (string * msg_content) :=
  omap (λ e, match e with
             | Execution_complete o c => Some (o, c)
             | _ => None
             end) effs.

Definition timers (effs : list effect) : list Z :=
  omap (λ e, match e with
             | QTimer_singleShot ms => Some ms
             | _ => None
             end) effs.

Definition forwarded (effs : list effect) : list kernel_msg :=
  omap (λ e, match e with
             | Original_iopub_handler m => Some m
             | _ => None
             end) effs.

(** The values that [workspace_updated] was emitted with, in order. *)
Definition updates (weffs : list workspace_effect) : list pyval :=
  omap (λ e, match e with
             | Workspace_updated d => Some d
             | _ => None
             end) weffs.

(** The text that an output-bearing message is signalled with (lines
    140-152). *)
Definition signalled_text (msg : kernel_msg) : string :=
  if bool_decide (kind msg = "stream") then default "" (text (payload msg))
  else if bool_decide (kind msg = "error")
  then join newline (default [] (traceback (payload msg)))
  else default "" (default ∅ (data (payload msg)) !! "text/plain").

(** The references of [_pending_messages] point into the heap, and no two
    ids share a future. *)
Definition heap_wf (self : JupyterConsoleTab) : Prop :=
  (∀ i f, _pending_messages self !! i = Some f → f < length (futures self)) ∧
  (∀ i j f, _pending_messages self !! i = Some f →
            _pending_messages self !! j = Some f → i = j).

(** The futures that a watched tab awaits are distinct and not done. *)
Definition watched_wf (w : watched_tab) : Prop :=
  NoDup (awaiting w) ∧
  ∀ f, f ∈ awaiting w → futures (the_tab w) !! f = Some Pending.




(** The calls of a watched tab: refreshes and deliveries. *)
Inductive watched_call :=
  | Refresh (result_var : string) (reply : option string)
  | Deliver (msg : kernel_msg).

(** A watched tab after a list of calls, oldest first, with the workspace
    effects of all of them. *)
Fixpoint watched_run (json_loads : string → loads_outcome)
    (emit_other : pyval → option pyexc) (w : watched_tab)
    (ks : list watched_call) : watched_tab * list workspace_effect :=
  match ks with
  | [] => (w, [])
  | k :: rest =>
      let '(w1, weff) :=
        match k with
        | Refresh result_var reply =>
            let '(w1, _, weff) := refresh emit_other w result_var reply in
            (w1, weff)
        | Deliver msg =>
            let '(w1, _, weff) := deliver json_loads emit_other w msg in
            (w1, weff)
        end in
      let '(w2, weff2) := watched_run json_loads emit_other w1 rest in
      (w2, weff ++ weff2)
  end.

Definition is_refresh (k : watched_call) : bool :=
  match k with
  | Refresh _ _ => true
  | Deliver _ => false
  end.




(** * Properties *)

Ltac handler_paths :=
  repeat first
    [ progress simplify_eq/=
    | case_bool_decide
    | case_match ].

Lemma opt_in_true o s : opt_in o s = true ↔ ∃ i, o = Some i ∧ i ∈ s.
Proof.
  destruct o as [k|]; simpl.
  - rewrite bool_decide_eq_true. split.
    + intros Hk. by exists k.
    + by intros (i & [= ->] & Hi).
  - split; [done | by intros (i & [=] & _)].
Qed.

Lemma output_kind_spec mt :
  output_kind mt = true ↔
  mt ∈ ["execute_result"; "display_data"; "stream"; "error"].
Proof.
  unfold output_kind. rewrite !orb_true_iff, !bool_decide_eq_true.
  rewrite !elem_of_cons, elem_of_nil. tauto.
Qed.

Lemma completion_signals_shape self mt c mid sil e :
  e ∈ completion_signals self mt c mid sil →
  (∃ o c', e = Execution_complete o c') ∨ e = QTimer_singleShot 100.
Proof.
  unfold completion_signals, emit_execution_complete, _on_execution_complete.
  handler_paths; set_solver.
Qed.

Lemma forward_spec msg mt sil e :
  e ∈ forward msg mt sil ↔
  e = Original_iopub_handler msg ∧ ¬ (sil = true ∧ output_kind mt = true).
Proof.
  unfold forward.
  destruct sil, (output_kind mt); simpl; set_solver.
Qed.

Section HandlerFacts.

Variable json_loads : string -> loads_outcome.

Lemma resolve_logs_only self mt c mid e :
  e ∈ (resolve_tracked json_loads self mt c mid).2 → ∃ x, e = Logger_error x.
Proof.
  unfold resolve_tracked. handler_paths; set_solver.
Qed.

(** What the tracked part of the handler leaves of the three structures:
    they are untouched, or the message id was cleaned up. *)
Lemma resolve_tracking self mt c mid :
  let self1 := (resolve_tracked json_loads self mt c mid).1 in
  (_pending_messages self1 = _pending_messages self ∧
   _internal_messages self1 = _internal_messages self ∧
   _silent_messages self1 = _silent_messages self)
  ∨ (∃ i, mid = Some i ∧ is_Some (_pending_messages self !! i) ∧
          is_idle mt c = true ∧
          _pending_messages self1 = delete i (_pending_messages self) ∧
          _internal_messages self1 = _internal_messages self ∖ {[i]} ∧
          _silent_messages self1 = _silent_messages self ∖ {[i]}).
Proof.
  unfold resolve_tracked.
  destruct mid as [i|]; simpl; [|by left].
  destruct (_pending_messages self !! i) as [fut|] eqn:Hp; simpl; [|by left].
  destruct (bool_decide (mt = "stream") && bool_decide (is_Some (text c))).
  { destruct (negb (done self fut)); [|by left].
    destruct (str_truthy _); [|by left].
    destruct (json_loads _); by left. }
  destruct (is_idle mt c) eqn:Hi; [|by left].
  right. exists i. rewrite Hp.
  destruct (negb (done self fut)); simpl; eauto 10.
Qed.

End HandlerFacts.

(** ** How dispatch changes the tracking structures *)

Lemma execute_silently_tracking self c internal hide reply :
  let self1 := (execute_silently self c internal hide reply).1.1 in
  _pending_messages self1 = _pending_messages self ∧
  futures self1 = futures self ∧
  _internal_messages self1 =
    (if opt_truthy reply && internal
     then _internal_messages self ∪ {[default "" reply]}
     else _internal_messages self) ∧
  _silent_messages self1 =
    (if opt_truthy reply && hide
     then _silent_messages self ∪ {[default "" reply]}
     else _silent_messages self).
Proof.
  unfold execute_silently.
  destruct (opt_truthy reply), internal, hide; simpl; auto.
Qed.

Lemma execute_and_get_future_tracking self c reply :
  let self1 := (execute_and_get_future self c reply).1.1 in
  let fut := length (futures self) in
  if opt_truthy reply then
    _pending_messages self1 = <[default "" reply := fut]> (_pending_messages self) ∧
    _internal_messages self1 = _internal_messages self ∪ {[default "" reply]} ∧
    _silent_messages self1 = _silent_messages self ∪ {[default "" reply]} ∧
    futures self1 = futures self ++ [Pending]
  else
    _pending_messages self1 = _pending_messages self ∧
    _internal_messages self1 = _internal_messages self ∧
    _silent_messages self1 = _silent_messages self ∧
    futures self1 = futures self ++ [Result PNone].
Proof.
  unfold execute_and_get_future, execute_silently.
  simpl. destruct (opt_truthy reply) eqn:Ht; simpl.
  - auto.
  - repeat split; try done.
    by rewrite insert_app_r_alt, Nat.sub_diag.
Qed.

Lemma change_directory_tracking self d e reply :
  let self1 := (change_directory self d e reply).1.1 in
  _pending_messages self1 = _pending_messages self ∧
  futures self1 = futures self ∧
  _internal_messages self1 = _internal_messages self ∧
  _silent_messages self1 =
    (if e && opt_truthy reply
     then _silent_messages self ∪ {[default "" reply]}
     else _silent_messages self).
Proof.
  unfold change_directory, execute_silently.
  destruct e, (opt_truthy reply); simpl; auto.
Qed.

Section Invariants.

Variable json_loads : string -> loads_outcome.

(** The handler never adds to the three structures. *)
Lemma handle_tracking self msg :
  let self1 := (_handle_iopub_message json_loads self msg).1 in
  (_pending_messages self1 = _pending_messages self ∧
   _internal_messages self1 = _internal_messages self ∧
   _silent_messages self1 = _silent_messages self)
  ∨ (∃ i, correlation_id msg = Some i ∧
          is_Some (_pending_messages self !! i) ∧
          is_idle (kind msg) (payload msg) = true ∧
          _pending_messages self1 = delete i (_pending_messages self) ∧
          _internal_messages self1 = _internal_messages self ∖ {[i]} ∧
          _silent_messages self1 = _silent_messages self ∖ {[i]}).
Proof.
  unfold _handle_iopub_message.
  pose proof (resolve_tracking json_loads self (kind msg) (payload msg)
                (correlation_id msg)) as H.
  unfold kind, payload, correlation_id in *.
  destruct (resolve_tracked _ _ _ _ _) as [self1 eff1]. exact H.
Qed.

Lemma step_pending_flagged self k :
  pending_flagged self → pending_flagged (step json_loads self k).1.
Proof.
  intros Hinv i. destruct k; cbn [step].
  - apply Hinv.
  - apply Hinv.
  - pose proof (execute_silently_tracking self c internal hide_output reply)
      as (Hp & _ & Hi & Hs).
    destruct (execute_silently _ _ _ _ _) as [[self1 r] eff]; simpl in *.
    rewrite Hp, Hi, Hs. intros Hsome. destruct (Hinv i Hsome).
    split; [destruct (_ && internal) | destruct (_ && hide_output)];
      set_solver.
  - pose proof (execute_and_get_future_tracking self c reply) as H.
    destruct (execute_and_get_future _ _ _) as [[self1 r] eff]; simpl in *.
    destruct (opt_truthy reply).
    + destruct H as (-> & -> & -> & _).
      rewrite lookup_insert_is_Some.
      intros [<- | [_ Hsome]]; [set_solver|].
      destruct (Hinv i Hsome). set_solver.
    + destruct H as (-> & -> & -> & _). apply Hinv.
  - pose proof (execute_and_get_future_tracking self
                  (Workspace_query result_var) reply) as H.
    unfold get_workspace_async.
    destruct (execute_and_get_future _ _ _) as [[self1 r] eff]; simpl in *.
    destruct (opt_truthy reply).
    + destruct H as (-> & -> & -> & _).
      rewrite lookup_insert_is_Some.
      intros [<- | [_ Hsome]]; [set_solver|].
      destruct (Hinv i Hsome). set_solver.
    + destruct H as (-> & -> & -> & _). apply Hinv.
  - pose proof (change_directory_tracking self directory path_exists reply)
      as (Hp & _ & Hi & Hs).
    destruct (change_directory _ _ _ _) as [[self1 r] eff]; simpl in *.
    rewrite Hp, Hi, Hs. intros Hsome. destruct (Hinv i Hsome).
    split; [done|]. destruct (path_exists && _); set_solver.
  - destruct (handle_tracking self msg) as [(-> & -> & ->) | Hclean].
    + apply Hinv.
    + destruct Hclean as (j & _ & _ & _ & -> & -> & ->).
      rewrite lookup_delete_is_Some. intros [Hne Hsome].
      destruct (Hinv i Hsome). set_solver.
Qed.

Lemma reachable_pending_flagged self :
  reachable json_loads self → pending_flagged self.
Proof.
  induction 1 as [name | self k _ IH].
  - intros i [f Hf]. simpl in Hf. by rewrite lookup_empty in Hf.
  - by apply step_pending_flagged.
Qed.

Lemma reachable_run self ks :
  reachable json_loads self → reachable json_loads (run json_loads self ks).
Proof.
  revert self. induction ks as [|k ks IH]; intros self Hr; simpl.
  - done.
  - apply IH. by constructor.
Qed.

End Invariants.

(** ** When the handler emits [execution_complete] *)

Lemma completion_signals_emits self mt c mid sil :
  ((∃ o c', Execution_complete o c' ∈ completion_signals self mt c mid sil)
   ↔ opt_in mid (_internal_messages self) = false ∧
     ((sil = false ∧ is_idle mt c = true) ∨ output_kind mt = true))
  ∧ (QTimer_singleShot 100 ∈ completion_signals self mt c mid sil
     ↔ ∃ o c', Execution_complete o c' ∈ completion_signals self mt c mid sil).
Proof.
  unfold completion_signals, output_kind, emit_execution_complete,
    _on_execution_complete.
  destruct (opt_in mid _), sil, (is_idle mt c),
    (bool_decide (mt = "execute_result")), (bool_decide (mt = "stream")),
    (bool_decide (mt = "display_data")), (bool_decide (mt = "error"));
    simpl; (split; split);
    try (intros (o & c' & H); set_solver);
    try (intros [? [[? ?]|?]]; discriminate);
    try (intros _; eauto using elem_of_list_here);
    try set_solver.
Qed.

Section Emission.

Variable json_loads : string -> loads_outcome.

(** In a tab whose pending ids are flagged, the emissions of the handler
    are decided by the tab as it was when the message arrived: the
    clean-up in between only concerns an idle status of a silent id. *)
Lemma handle_signals self msg :
  pending_flagged self →
  ∀ e, (∃ o c, e = Execution_complete o c) ∨ e = QTimer_singleShot 100 →
    (e ∈ (_handle_iopub_message json_loads self msg).2 ↔
     e ∈ completion_signals self (kind msg) (payload msg)
           (correlation_id msg)
           (opt_in (correlation_id msg) (_silent_messages self))).
Proof.
  intros Hinv e He.
  unfold _handle_iopub_message.
  fold (kind msg) (payload msg). fold (correlation_id msg).
  pose proof (resolve_tracking json_loads self (kind msg) (payload msg)
                (correlation_id msg)) as Htr.
  pose proof (resolve_logs_only json_loads self (kind msg) (payload msg)
                (correlation_id msg) e) as Hlog.
  destruct (resolve_tracked _ _ _ _ _) as [self1 eff1]; simpl in *.
  rewrite !elem_of_app, forward_spec.
  assert (e ∈ completion_signals self1 (kind msg) (payload msg)
            (correlation_id msg)
            (opt_in (correlation_id msg) (_silent_messages self)) ↔
          e ∈ completion_signals self (kind msg) (payload msg)
            (correlation_id msg)
            (opt_in (correlation_id msg) (_silent_messages self))) as Heq.
  { destruct Htr as [(_ & Hi & _) | (i & Hmid & Hsome & Hidle & _ & Hi & _)].
    - unfold completion_signals. by rewrite Hi.
    - destruct (Hinv i Hsome) as [Hint Hsil].
      unfold completion_signals. rewrite Hi, Hmid. simpl.
      rewrite (bool_decide_eq_true_2 _ Hsil), (bool_decide_eq_true_2 _ Hint).
      rewrite bool_decide_eq_false_2 by set_solver. simpl.
      unfold is_idle in Hidle. apply andb_true_iff in Hidle as [Hst _].
      apply bool_decide_eq_true in Hst. rewrite Hst. simpl. done. }
  split.
  - intros [Hin | [Hin | [-> _]]].
    + destruct (Hlog Hin) as [x ->]. destruct He as [(o & c & [=]) | [=]].
    + by apply Heq.
    + destruct He as [(o & c & [=]) | [=]].
  - intros Hin. right. left. by apply Heq.
Qed.

Lemma handle_emits self msg :
  pending_flagged self →
  (∃ o c, Execution_complete o c ∈ (_handle_iopub_message json_loads self msg).2)
  ↔ completes self msg.
Proof.
  intros Hinv. unfold completes.
  rewrite <- (proj1 (completion_signals_emits self (kind msg) (payload msg)
                       (correlation_id msg) _)).
  split; intros (o & c & H); exists o, c;
    apply (handle_signals self msg Hinv); eauto.
Qed.

Lemma handle_refreshes self msg :
  pending_flagged self →
  QTimer_singleShot 100 ∈ (_handle_iopub_message json_loads self msg).2
  ↔ completes self msg.
Proof.
  intros Hinv. rewrite <- (handle_emits self msg Hinv).
  rewrite (handle_signals self msg Hinv) by eauto.
  rewrite (proj2 (completion_signals_emits _ _ _ _ _)).
  split; intros (o & c & H); exists o, c;
    apply (handle_signals self msg Hinv); eauto.
Qed.

End Emission.

(** ** Routing *)

Lemma opt_in_false o s : opt_in o s = false ↔ ¬ ∃ i, o = Some i ∧ i ∈ s.
Proof.
  rewrite <- opt_in_true. by destruct (opt_in o s).
Qed.

Lemma is_idle_spec msg :
  is_idle (kind msg) (payload msg) = true ↔ idle_status msg.
Proof.
  unfold is_idle, idle_status.
  by rewrite andb_true_iff, !bool_decide_eq_true.
Qed.

Lemma completes_spec self msg :
  completes self msg ↔
  ¬ internal_request self msg ∧
  ((¬ silent_request self msg ∧ idle_status msg) ∨ output_bearing msg).
Proof.
  unfold completes, internal_request, silent_request, output_bearing.
  by rewrite !opt_in_false, is_idle_spec, output_kind_spec.
Qed.

Lemma reachable_sent_silently json_loads self c internal hide reply :
  reachable json_loads self →
  reachable json_loads (sent_silently self c internal hide reply).
Proof.
  intros Hr.
  apply (reachable_step json_loads self
           (Execute_silently c internal hide reply)) in Hr.
  cbn [step] in Hr. unfold sent_silently.
  by destruct (execute_silently _ _ _ _ _) as [[s r] e].
Qed.

(** C1. A request sent by [execute_silently] with [internal=True] and
    answered with the message id [i] puts [i] in the internal set; from
    then on, whatever calls the tab receives, a message that carries [i]
    while [i] is in the internal set makes the handler emit no
    [execution_complete]. *)
Theorem internal_exemption json_loads self c hide i ks msg :
  reachable json_loads self →
  str_truthy i = true →
  i ∈ _internal_messages (sent_silently self c true hide (Some i)) ∧
  (i ∈ _internal_messages
         (run json_loads (sent_silently self c true hide (Some i)) ks) →
   correlation_id msg = Some i →
   ∀ o c', Execution_complete o c' ∉
     (_handle_iopub_message json_loads
        (run json_loads (sent_silently self c true hide (Some i)) ks) msg).2).
Proof.
  intros Hr Ht. split.
  - unfold sent_silently.
    destruct (execute_silently_tracking self c true hide (Some i))
      as (_ & _ & -> & _).
    simpl. rewrite Ht. simpl. set_solver.
  - intros Hin Hid o c' Hemit.
    assert (pending_flagged
              (run json_loads (sent_silently self c true hide (Some i)) ks))
      as Hinv.
    { apply (reachable_pending_flagged json_loads), reachable_run.
      by apply reachable_sent_silently. }
    assert (completes
              (run json_loads (sent_silently self c true hide (Some i)) ks)
              msg) as [Hno _].
    { apply (handle_emits json_loads); eauto. }
    apply opt_in_false in Hno. apply Hno. eauto.
Qed.

(** C2. The handler passes a message on to the widget's own IOPub handler
    exactly when it is not an output-bearing message of a silent request;
    it passes on nothing but the message it was given, and a status message
    is always passed on. *)
Theorem forwarded_iff json_loads self msg :
  (∀ m, Original_iopub_handler m ∈ (_handle_iopub_message json_loads self msg).2
        ↔ m = msg ∧ ¬ (silent_request self msg ∧ output_bearing msg))
  ∧ (kind msg = "status" →
     Original_iopub_handler msg ∈ (_handle_iopub_message json_loads self msg).2).
Proof.
  assert (∀ m, Original_iopub_handler m
                 ∈ (_handle_iopub_message json_loads self msg).2
               ↔ m = msg ∧ ¬ (silent_request self msg ∧ output_bearing msg))
    as Hiff.
  { intros m. unfold _handle_iopub_message.
    fold (kind msg) (payload msg). fold (correlation_id msg).
    pose proof (resolve_logs_only json_loads self (kind msg) (payload msg)
                  (correlation_id msg) (Original_iopub_handler m)) as Hlog.
    destruct (resolve_tracked _ _ _ _ _) as [self1 eff1]; simpl in *.
    rewrite !elem_of_app, forward_spec, opt_in_true, output_kind_spec.
    unfold silent_request, output_bearing. split.
    - intros [Hin | [Hin | [[= ->] Hno]]].
      + by destruct (Hlog Hin).
      + apply completion_signals_shape in Hin
          as [(o & c' & [=]) | [=]].
      + done.
    - intros [-> Hno]. right. right. done. }
  split; [exact Hiff|].
  intros Hst. apply Hiff. split; [done|].
  intros [_ Hout]. unfold output_bearing in Hout. rewrite Hst in Hout.
  rewrite !elem_of_cons, elem_of_nil in Hout.
  destruct Hout as [[=] | [[=] | [[=] | [[=] | []]]]].
Qed.

Lemma reachable_querying_tab json_loads : reachable json_loads querying_tab.
Proof.
  exact (reachable_step json_loads fresh_tab
           (Get_workspace_async "_workspace_data_0a1b2c3d" (Some "m1"))
           (reachable_init json_loads None)).
Qed.

Lemma reachable_chdir_tab json_loads : reachable json_loads chdir_tab.
Proof.
  exact (reachable_step json_loads fresh_tab
           (Change_directory "/tmp" true (Some "m1"))
           (reachable_init json_loads None)).
Qed.

Lemma internal_exemption_witness :
  "m1" ∈ _internal_messages
           (sent_silently fresh_tab (Source "1") true false (Some "m1")) ∧
  Execution_complete "" empty_content ∉
    (_handle_iopub_message loads_atoms
       (sent_silently fresh_tab (Source "1") true false (Some "m1"))
       (idle_msg "m1")).2.
Proof.
  destruct (internal_exemption loads_atoms fresh_tab (Source "1") false "m1"
              [] (idle_msg "m1") (reachable_init _ None) eq_refl) as [H1 H2].
  split; [exact H1|].
  apply H2; [exact H1 | reflexivity].
Defined.

(** The handler on an idle status of a tracked request. *)
Lemma handle_idle json_loads self msg i fut :
  idle_status msg →
  correlation_id msg = Some i →
  _pending_messages self !! i = Some fut →
  futures (_handle_iopub_message json_loads self msg).1 =
    (if done self fut then futures self
     else <[fut := Result (PDict [])]> (futures self)) ∧
  (futures self !! fut = Some Pending →
   futures (_handle_iopub_message json_loads self msg).1 !! fut
     = Some (Result (PDict []))) ∧
  _pending_messages (_handle_iopub_message json_loads self msg).1 !! i = None ∧
  (i ∉ _internal_messages (_handle_iopub_message json_loads self msg).1) ∧
  (i ∉ _silent_messages (_handle_iopub_message json_loads self msg).1).
Proof.
  intros [Hst Hidle] Hid Hp.
  assert (is_idle (kind msg) (payload msg) = true) as Hi.
  { apply is_idle_spec. by split. }
  unfold _handle_iopub_message.
  fold (kind msg) (payload msg). fold (correlation_id msg).
  unfold resolve_tracked. rewrite Hid, Hp, Hi.
  rewrite (bool_decide_eq_false_2 (kind msg = "stream")) by (by rewrite Hst).
  cbn [andb].
  assert (futures (if negb (done self fut)
                   then set_result self fut (PDict []) else self) =
          (if done self fut then futures self
           else <[fut := Result (PDict [])]> (futures self))) as Hf.
  { by destruct (done self fut). }
  cbn [fst _cleanup_message_ids futures _pending_messages
         _internal_messages _silent_messages].
  rewrite Hf. split; [done|]. split.
  - intros Hpend. unfold done. rewrite Hpend.
    apply list_lookup_insert_eq. by eapply lookup_lt_Some.
  - rewrite lookup_delete_eq. set_solver.
Qed.

(** C3. An idle status message whose correlation id is a key of
    [_pending_messages]: a future that is not done gets the result [{}], a
    done one is left as it is, and the id leaves the three structures. *)
Theorem idle_resolves_and_evicts json_loads self msg i fut :
  idle_status msg →
  correlation_id msg = Some i →
  _pending_messages self !! i = Some fut →
  futures (_handle_iopub_message json_loads self msg).1 =
    (if done self fut then futures self
     else <[fut := Result (PDict [])]> (futures self)) ∧
  (futures self !! fut = Some Pending →
   futures (_handle_iopub_message json_loads self msg).1 !! fut
     = Some (Result (PDict []))) ∧
  _pending_messages (_handle_iopub_message json_loads self msg).1 !! i = None ∧
  (i ∉ _internal_messages (_handle_iopub_message json_loads self msg).1) ∧
  (i ∉ _silent_messages (_handle_iopub_message json_loads self msg).1).
Proof. apply handle_idle. Qed.

Lemma idle_resolves_and_evicts_witness :
  futures (_handle_iopub_message loads_atoms querying_tab (idle_msg "m1")).1
    = [Result (PDict [])] ∧
  _pending_messages
    (_handle_iopub_message loads_atoms querying_tab (idle_msg "m1")).1 !! "m1"
    = None.
Proof.
  destruct (idle_resolves_and_evicts loads_atoms querying_tab (idle_msg "m1")
              "m1" 0 (conj eq_refl eq_refl) eq_refl eq_refl)
    as (Hf & _ & Hp & _).
  split; [exact Hf | exact Hp].
Defined.

(** ** Residual entries *)

Lemma step_no_residue json_loads self k :
  flags_untracked k = false →
  no_residue self → no_residue (step json_loads self k).1.
Proof.
  intros Hk Hinv i. destruct k; cbn [step flags_untracked] in *.
  - apply Hinv.
  - apply Hinv.
  - pose proof (execute_silently_tracking self c internal hide_output reply)
      as (Hp & _ & Hi & Hs).
    destruct (execute_silently _ _ _ _ _) as [[self1 r] eff]; simpl in *.
    rewrite Hp, Hi, Hs.
    destruct (opt_truthy reply), internal, hide_output;
      try discriminate; apply Hinv.
  - pose proof (execute_and_get_future_tracking self c reply) as H.
    destruct (execute_and_get_future _ _ _) as [[self1 r] eff]; simpl in *.
    destruct (opt_truthy reply).
    + destruct H as (-> & -> & -> & _).
      rewrite lookup_insert_None. intros [Hnone Hne].
      destruct (Hinv i Hnone). set_solver.
    + destruct H as (-> & -> & -> & _). apply Hinv.
  - pose proof (execute_and_get_future_tracking self
                  (Workspace_query result_var) reply) as H.
    unfold get_workspace_async.
    destruct (execute_and_get_future _ _ _) as [[self1 r] eff]; simpl in *.
    destruct (opt_truthy reply).
    + destruct H as (-> & -> & -> & _).
      rewrite lookup_insert_None. intros [Hnone Hne].
      destruct (Hinv i Hnone). set_solver.
    + destruct H as (-> & -> & -> & _). apply Hinv.
  - pose proof (change_directory_tracking self directory path_exists reply)
      as (Hp & _ & Hi & Hs).
    destruct (change_directory _ _ _ _) as [[self1 r] eff]; simpl in *.
    rewrite Hp, Hi, Hs, Hk. apply Hinv.
  - destruct (handle_tracking json_loads self msg)
      as [(-> & -> & ->) | Hclean].
    + apply Hinv.
    + destruct Hclean as (j & _ & _ & _ & -> & -> & ->).
      rewrite lookup_delete_None. intros [<- | Hnone]; [set_solver|].
      destruct (Hinv i Hnone). set_solver.
Qed.

Lemma run_no_residue json_loads self ks :
  Forall (λ k, flags_untracked k = false) ks →
  no_residue self → no_residue (run json_loads self ks).
Proof.
  intros Hks. revert self.
  induction Hks as [|k ks Hk _ IH]; intros self Hinv; simpl.
  - done.
  - apply IH. by apply step_no_residue.
Qed.

(** C4, as the code has it.  After any calls, every key of
    [_pending_messages] is in both sets.  The converse, that an id outside
    [_pending_messages] is in neither set, holds as long as no call flagged
    an id without registering a future: no answered [change_directory] on
    an existing path, and no answered direct [execute_silently] with
    [internal] or [hide_output] set. *)
Theorem tracking_structures_agree json_loads name ks :
  pending_flagged (run json_loads (JupyterConsoleTab_init name) ks) ∧
  (Forall (λ k, flags_untracked k = false) ks →
   no_residue (run json_loads (JupyterConsoleTab_init name) ks)).
Proof.
  split.
  - apply (reachable_pending_flagged json_loads), reachable_run. constructor.
  - intros Hks. apply run_no_residue; [done|].
    intros i _. simpl. set_solver.
Qed.

Lemma tracking_structures_agree_witness :
  no_residue
    (run loads_atoms (JupyterConsoleTab_init None)
       [Change_directory "/nowhere" false (Some "m0");
        Get_workspace_async "_workspace_data_0a1b2c3d" (Some "m1");
        Handle_iopub_message (stream_msg "m1" "{}");
        Handle_iopub_message (idle_msg "m1")]).
Proof.
  apply (tracking_structures_agree loads_atoms None).
  repeat constructor.
Defined.

(** C4 as stated fails: after a [change_directory] the id is in the silent
    set and is not a key of [_pending_messages]. *)
Lemma change_directory_leaves_residue :
  reachable loads_atoms chdir_tab ∧
  _pending_messages chdir_tab !! "m1" = None ∧
  "m1" ∈ _silent_messages chdir_tab ∧
  ¬ no_residue chdir_tab.
Proof.
  assert ("m1" ∈ _silent_messages chdir_tab) as Hin.
  { apply (bool_decide_unpack _). by vm_compute. }
  split; [apply reachable_chdir_tab|].
  split; [reflexivity|]. split; [exact Hin|].
  intros H. destruct (H "m1" eq_refl) as [_ Hs]. by apply Hs.
Qed.

(** ** Workspace refreshes *)

(** C6, as the code has it.  In a reachable tab the handler arms the
    refresh timer exactly when the message is not of an internal request
    and is either the idle status of a request that is not silent, or an
    output-bearing message: the silent flag holds back the idle status
    only. *)
Theorem refresh_iff json_loads self msg :
  reachable json_loads self →
  (QTimer_singleShot 100 ∈ (_handle_iopub_message json_loads self msg).2
   ↔ ¬ internal_request self msg ∧
     ((¬ silent_request self msg ∧ idle_status msg) ∨ output_bearing msg)).
Proof.
  intros Hr. rewrite <- completes_spec.
  apply handle_refreshes. by apply (reachable_pending_flagged json_loads).
Qed.

Lemma refresh_iff_witness :
  QTimer_singleShot 100 ∉
    (_handle_iopub_message loads_atoms silent_tab (idle_msg "m1")).2.
Proof.
  intros Hin.
  apply (refresh_iff loads_atoms silent_tab (idle_msg "m1")
           (reachable_sent_silently loads_atoms fresh_tab _ _ _ _
              (reachable_init loads_atoms None))) in Hin
    as [_ [[Hns _] | Hout]].
  - apply Hns. exists "m1". split; [reflexivity|].
    apply (bool_decide_unpack _). by vm_compute.
  - unfold output_bearing in Hout. set_solver.
Defined.

(** C6 as stated fails: a stream message of a silent request that is not
    internal arms the refresh timer. *)
Lemma silent_output_refreshes :
  reachable loads_atoms silent_tab ∧
  correlation_id (stream_msg "m1" "1") = Some "m1" ∧
  "m1" ∈ _silent_messages silent_tab ∧
  (_handle_iopub_message loads_atoms silent_tab (stream_msg "m1" "1")).2 =
    [Execution_complete "1" (payload (stream_msg "m1" "1"));
     QTimer_singleShot 100].
Proof.
  split; [apply reachable_sent_silently; constructor|].
  split; [reflexivity|].
  split; [apply (bool_decide_unpack _); by vm_compute|].
  by vm_compute.
Qed.

(** ** Stream output of a tracked request *)

(** The handler on a stream message with text for a tracked request: only
    the heap of futures can change. *)
Lemma handle_stream json_loads self msg i fut t :
  kind msg = "stream" →
  text (payload msg) = Some t →
  correlation_id msg = Some i →
  _pending_messages self !! i = Some fut →
  (_handle_iopub_message json_loads self msg).1 =
    if negb (done self fut) && str_truthy (strip t) then
      match json_loads (strip t) with
      | Loaded v => set_result self fut v
      | JSONDecodeError => set_result self fut (PStr (strip t))
      | Raised e => set_exception self fut e
      end
    else self.
Proof.
  intros Hk Ht Hid Hp.
  unfold _handle_iopub_message.
  fold (kind msg) (payload msg). fold (correlation_id msg).
  unfold resolve_tracked. rewrite Hid, Hp, Hk, Ht. simpl.
  destruct (done self fut); simpl; [done|].
  destruct (str_truthy (strip t)); simpl; [|done].
  by destruct (json_loads (strip t)).
Qed.

Lemma not_done self fut : futures self !! fut = Some Pending → done self fut = false.
Proof. intros H. unfold done. by rewrite H. Qed.

(** C7, as the code has it.  A stream message with text for a tracked
    request whose future is not done: the text is stripped first; an empty
    remainder leaves the future as it is; otherwise the future gets the
    parsed value, or the stripped text when it is not JSON, or the
    exception that the parser raised, which is also logged.  No other
    future and none of the tracking structures change. *)
Theorem stream_resolves json_loads self msg i fut t :
  kind msg = "stream" →
  text (payload msg) = Some t →
  correlation_id msg = Some i →
  _pending_messages self !! i = Some fut →
  futures self !! fut = Some Pending →
  (strip t = "" →
   futures (_handle_iopub_message json_loads self msg).1 = futures self) ∧
  (strip t ≠ "" → ∀ v, json_loads (strip t) = Loaded v →
   futures (_handle_iopub_message json_loads self msg).1 !! fut
     = Some (Result v)) ∧
  (strip t ≠ "" → json_loads (strip t) = JSONDecodeError →
   futures (_handle_iopub_message json_loads self msg).1 !! fut
     = Some (Result (PStr (strip t)))) ∧
  (strip t ≠ "" → ∀ e, json_loads (strip t) = Raised e →
   futures (_handle_iopub_message json_loads self msg).1 !! fut
     = Some (Exception e) ∧
   Logger_error e ∈ (_handle_iopub_message json_loads self msg).2) ∧
  (∀ other, other ≠ fut →
   futures (_handle_iopub_message json_loads self msg).1 !! other
     = futures self !! other) ∧
  _pending_messages (_handle_iopub_message json_loads self msg).1
    = _pending_messages self ∧
  _internal_messages (_handle_iopub_message json_loads self msg).1
    = _internal_messages self ∧
  _silent_messages (_handle_iopub_message json_loads self msg).1
    = _silent_messages self.
Proof.
  intros Hk Ht Hid Hp Hpend.
  pose proof (lookup_lt_Some _ _ _ Hpend) as Hlt.
  rewrite (handle_stream json_loads self msg i fut t Hk Ht Hid Hp).
  rewrite (not_done self fut Hpend). cbn [negb andb].
  unfold str_truthy.
  refine (conj _ (conj _ (conj _ (conj _ (conj _ (conj _ (conj _ _))))))).
  - intros ->. by rewrite bool_decide_eq_true_2.
  - intros Hne v Hv. rewrite bool_decide_eq_false_2 by done.
    cbn [negb]. rewrite Hv. by apply list_lookup_insert_eq.
  - intros Hne Hv. rewrite bool_decide_eq_false_2 by done.
    cbn [negb]. rewrite Hv. by apply list_lookup_insert_eq.
  - intros Hne e He. split.
    + rewrite bool_decide_eq_false_2 by done.
      cbn [negb]. rewrite He. by apply list_lookup_insert_eq.
    + unfold _handle_iopub_message.
      fold (kind msg) (payload msg). fold (correlation_id msg).
      unfold resolve_tracked. rewrite Hid, Hp, Hk, Ht. simpl.
      rewrite (not_done self fut Hpend). simpl.
      unfold str_truthy. rewrite bool_decide_eq_false_2 by done.
      simpl. rewrite He. set_solver.
  - intros other Hne.
    destruct (negb _); [|done].
    destruct (json_loads _); simpl; by rewrite list_lookup_insert_ne.
  - destruct (negb _); [|done]. by destruct (json_loads _).
  - destruct (negb _); [|done]. by destruct (json_loads _).
  - destruct (negb _); [|done]. by destruct (json_loads _).
Qed.

Lemma stream_resolves_witness :
  futures (_handle_iopub_message loads_atoms querying_tab
             (stream_msg "m1" (" 42" ++ newline)%string)).1 !! 0
    = Some (Result (PInt 42)).
Proof.
  destruct (stream_resolves loads_atoms querying_tab
              (stream_msg "m1" (" 42" ++ newline)%string) "m1" 0
              (" 42" ++ newline)%string
              eq_refl eq_refl eq_refl eq_refl eq_refl)
    as (_ & Hv & _).
  apply Hv; [by vm_compute | by vm_compute].
Defined.

(** C7 as stated fails twice: a text that is not JSON resolves the future
    with the stripped text, not with the raw text, and a blank text, which
    is not JSON either, does not resolve it at all. *)
Lemma stream_text_is_stripped :
  futures (_handle_iopub_message loads_atoms querying_tab
             (stream_msg "m1" ("hello" ++ newline)%string)).1
    = [Result (PStr "hello")] ∧
  PStr "hello" ≠ PStr ("hello" ++ newline)%string ∧
  futures (_handle_iopub_message loads_atoms querying_tab
             (stream_msg "m1" " ")).1
    = [Pending].
Proof.
  split; [by vm_compute|]. split; [|by vm_compute].
  intros [=].
Qed.

(** ** Blank stream output *)

Lemma handle_blank_stream json_loads self msg i fut t :
  kind msg = "stream" →
  text (payload msg) = Some t →
  strip t = "" →
  correlation_id msg = Some i →
  _pending_messages self !! i = Some fut →
  (_handle_iopub_message json_loads self msg).1 = self.
Proof.
  intros Hk Ht Hblank Hid Hp.
  rewrite (handle_stream json_loads self msg i fut t Hk Ht Hid Hp).
  rewrite Hblank. unfold str_truthy.
  rewrite bool_decide_eq_true_2 by done.
  by rewrite andb_false_r.
Qed.

(** C10. Stream messages of a tracked request whose text is empty or
    blank do not resolve its future: each leaves the tab as it was, so a
    future that was not done is still not done after them, and gets the
    result [{}] from the idle status of the request. *)
Theorem blank_stream_waits_for_idle json_loads self i fut msgs idle :
  _pending_messages self !! i = Some fut →
  futures self !! fut = Some Pending →
  Forall (blank_stream i) msgs →
  idle_status idle →
  correlation_id idle = Some i →
  run json_loads self (Handle_iopub_message <$> msgs) = self ∧
  futures (run json_loads self (Handle_iopub_message <$> msgs)) !! fut
    = Some Pending ∧
  futures (_handle_iopub_message json_loads
             (run json_loads self (Handle_iopub_message <$> msgs)) idle).1
    !! fut = Some (Result (PDict [])).
Proof.
  intros Hp Hpend Hmsgs Hidle Hid.
  assert (run json_loads self (Handle_iopub_message <$> msgs) = self) as Hrun.
  { induction Hmsgs as [|m ms (Hk & Hm & t & Ht & Hblank) _ IH]; [done|].
    simpl.
    by rewrite (handle_blank_stream json_loads self m i fut t). }
  rewrite Hrun. split; [done|]. split; [done|].
  by apply (handle_idle json_loads self idle i fut).
Qed.

Lemma blank_stream_waits_for_idle_witness :
  futures (_handle_iopub_message loads_atoms
             (run loads_atoms querying_tab
                (Handle_iopub_message <$> [stream_msg "m1" newline;
                                            stream_msg "m1" ""]))
             (idle_msg "m1")).1 !! 0
    = Some (Result (PDict [])).
Proof.
  apply (blank_stream_waits_for_idle loads_atoms querying_tab "m1" 0
           [stream_msg "m1" newline; stream_msg "m1" ""] (idle_msg "m1")
           eq_refl eq_refl).
  - unfold blank_stream. constructor.
    { split; [reflexivity|]. split; [reflexivity|].
      exists newline. split; [reflexivity | by vm_compute]. }
    constructor; [|constructor].
    split; [reflexivity|]. split; [reflexivity|].
    exists "". split; [reflexivity | by vm_compute].
  - by split.
  - reflexivity.
Defined.

(** ** Closing a page *)



(** [shutdown_kernel] touches neither the tracking structures nor the
    futures. *)
Lemma shutdown_kernel_tracking self :
  _pending_messages (shutdown_kernel self).1 = _pending_messages self ∧
  _internal_messages (shutdown_kernel self).1 = _internal_messages self ∧
  _silent_messages (shutdown_kernel self).1 = _silent_messages self ∧
  futures (shutdown_kernel self).1 = futures self.
Proof. done. Qed.

(** C5, as the code has it.  Closing a page shuts its kernel down and
    takes the page out of the tab widget; the page keeps its pending
    requests, and each future is as it was: one that was not done is still
    not done. *)
Theorem close_tab_keeps_futures self index page :
  widget self index = Some page →
  removed (close_tab self index).1
    = removed self ++ [(shutdown_kernel page).1] ∧
  _pending_messages (shutdown_kernel page).1 = _pending_messages page ∧
  futures (shutdown_kernel page).1 = futures page ∧
  (∀ i fut, _pending_messages page !! i = Some fut →
            futures page !! fut = Some Pending →
            _pending_messages (shutdown_kernel page).1 !! i = Some fut ∧
            futures (shutdown_kernel page).1 !! fut = Some Pending).
Proof.
  intros Hw. unfold close_tab. rewrite Hw. simpl.
  split; [by case_bool_decide|]. done.
Qed.

Lemma close_tab_keeps_futures_witness :
  removed (close_tab (Console "python3" [fresh_tab; querying_tab] []) 1).1
    = [(shutdown_kernel querying_tab).1] ∧
  futures (shutdown_kernel querying_tab).1 = [Pending].
Proof.
  destruct (close_tab_keeps_futures
              (Console "python3" [fresh_tab; querying_tab] []) 1
              querying_tab eq_refl) as (Hr & _ & Hf & _).
  split; [exact Hr | exact Hf].
Defined.

(** C5 as stated fails: the future of a request that is pending when its
    only page is closed is not done afterwards. *)
Lemma close_leaves_future_pending :
  removed (close_tab (Console "python3" [querying_tab] []) 0).1
    = [(shutdown_kernel querying_tab).1] ∧
  _pending_messages (shutdown_kernel querying_tab).1 !! "m1" = Some 0 ∧
  futures (shutdown_kernel querying_tab).1 !! 0 = Some Pending ∧
  done (shutdown_kernel querying_tab).1 0 = false.
Proof. by vm_compute. Qed.

(** ** The previews of the workspace snippet *)

Module WorkspaceFacts.
Import Workspace.

(** A value of a simple type whose [repr] fits is previewed by its
    [repr]. *)
Lemma short_repr_preview slice_concat bound ty v :
  one_of ty ["str"; "int"; "float"; "bool"] = true →
  (String.length (repr v) ≤ 50)%nat →
  try_preview slice_concat bound ty v = Returns (repr v, bound).
Proof.
  intros Hty Hlen. unfold try_preview.
  assert ((50 <? String.length (repr v))%nat = false) as ->
    by (apply Nat.ltb_ge; lia).
  unfold one_of in *. apply bool_decide_eq_true in Hty.
  repeat case_bool_decide; set_solver.
Qed.

(** A value of a simple type whose [repr] is longer than 50 characters,
    in a namespace that does not bind [preview]: the truncation raises
    [NameError]. *)
Lemma long_repr_raises slice_concat ty v :
  one_of ty ["str"; "int"; "float"; "bool"] = true →
  (50 < String.length (repr v))%nat →
  try_preview slice_concat None ty v = Raises (NameError "preview").
Proof.
  intros Hty Hlen. unfold try_preview.
  assert ((50 <? String.length (repr v))%nat = true) as ->
    by (apply Nat.ltb_lt; lia).
  unfold one_of in *. apply bool_decide_eq_true in Hty.
  repeat case_bool_decide; set_solver.
Qed.

(** C9 on the code.  A namespace that binds [x] to a string of 60
    characters: the snippet reports the error placeholder for [x], not the
    truncated [repr]; a short integer is reported by its [repr]. *)
Theorem long_string_preview_is_error :
  workspace not_subscriptable "_workspace_data_0a1b2c3d"
    [("x", PStr sixty_a); ("n", PInt 42)]
  = [("x", Entry "str" "<Error: name 'preview' is not defined>");
     ("n", Entry "int" "42")] ∧
  truncated_repr (PStr sixty_a)
  = "'aaaaaaaaaaaaaaaaaaaaaaaaaaaaaaaaaaaaaaaaaaaaaa...".
Proof. by vm_compute. Qed.

End WorkspaceFacts.

(** * Further properties of the tab *)

(** ** Dispatch *)

(** X1. When the kernel client answers with no id (or an empty one),
    [execute_and_get_future] returns a new future that is done with
    [None] at once; the three structures and the older futures are as
    they were. *)
Theorem failed_dispatch_resolves_at_once self c reply :
  opt_truthy reply = false →
  (execute_and_get_future self c reply).1.2 = length (futures self) ∧
  futures (execute_and_get_future self c reply).1.1
    = futures self ++ [Result PNone] ∧
  _pending_messages (execute_and_get_future self c reply).1.1
    = _pending_messages self ∧
  _internal_messages (execute_and_get_future self c reply).1.1
    = _internal_messages self ∧
  _silent_messages (execute_and_get_future self c reply).1.1
    = _silent_messages self.
Proof.
  intros Hreply.
  pose proof (execute_and_get_future_tracking self c reply) as H.
  rewrite Hreply in H. destruct H as (Hp & Hi & Hs & Hf).
  split; [|by repeat split].
  unfold execute_and_get_future, execute_silently. simpl.
  by rewrite Hreply.
Qed.

Lemma failed_dispatch_resolves_at_once_witness :
  futures (execute_and_get_future fresh_tab (Source "21*2") (Some "")).1.1
    = [Result PNone].
Proof.
  by destruct (failed_dispatch_resolves_at_once fresh_tab (Source "21*2")
                 (Some "") eq_refl) as (_ & Hf & _).
Defined.

(** X2. When the kernel client answers with the id [i],
    [execute_and_get_future] registers under [i] a future that the heap did
    not hold before and that is not done, flags [i] as internal and as
    silent, and leaves every other registration and every older future as
    it was. *)
Theorem dispatch_registers_new_future self c i :
  str_truthy i = true →
  (execute_and_get_future self c (Some i)).1.2 = length (futures self) ∧
  _pending_messages (execute_and_get_future self c (Some i)).1.1 !! i
    = Some (length (futures self)) ∧
  futures (execute_and_get_future self c (Some i)).1.1
    !! length (futures self) = Some Pending ∧
  futures self !! length (futures self) = None ∧
  (∀ f, f < length (futures self) →
        futures (execute_and_get_future self c (Some i)).1.1 !! f
          = futures self !! f) ∧
  (∀ j, j ≠ i →
        _pending_messages (execute_and_get_future self c (Some i)).1.1 !! j
          = _pending_messages self !! j) ∧
  i ∈ _internal_messages (execute_and_get_future self c (Some i)).1.1 ∧
  i ∈ _silent_messages (execute_and_get_future self c (Some i)).1.1.
Proof.
  intros Hi.
  pose proof (execute_and_get_future_tracking self c (Some i)) as H.
  simpl in H. rewrite Hi in H. destruct H as (Hp & Hint & Hsil & Hf).
  rewrite Hp, Hint, Hsil, Hf.
  refine (conj _ (conj _ (conj _ (conj _ (conj _ (conj _ (conj _ _))))))).
  - unfold execute_and_get_future, execute_silently. simpl. by rewrite Hi.
  - apply lookup_insert_eq.
  - by rewrite lookup_app_r, Nat.sub_diag.
  - by apply lookup_ge_None.
  - intros f Hlt. by apply lookup_app_l.
  - intros j Hne. by apply lookup_insert_ne.
  - set_solver.
  - set_solver.
Qed.

Lemma dispatch_registers_new_future_witness :
  _pending_messages
    (execute_and_get_future fresh_tab (Source "21*2") (Some "m1")).1.1 !! "m1"
    = Some 0.
Proof.
  by destruct (dispatch_registers_new_future fresh_tab (Source "21*2") "m1"
                 eq_refl) as (_ & Hp & _).
Defined.

(** X3. [change_directory] answers whether the path exists, whatever the
    kernel client answered.  For a path that does not exist it sends
    nothing and leaves the tab as it was; for one that exists it sends one
    silent request, registers no future for it, and flags an answered id
    as silent and not as internal. *)
Theorem change_directory_answer self d e reply :
  (change_directory self d e reply).1.2 = e ∧
  (e = false →
   (change_directory self d e reply).1.1 = self ∧
   (change_directory self d e reply).2 = []) ∧
  (e = true →
   (change_directory self d e reply).2
     = [Kernel_client_execute (Chdir d) true false]) ∧
  _pending_messages (change_directory self d e reply).1.1
    = _pending_messages self ∧
  futures (change_directory self d e reply).1.1 = futures self ∧
  _internal_messages (change_directory self d e reply).1.1
    = _internal_messages self ∧
  (∀ i, e = true → reply = Some i → str_truthy i = true →
        i ∈ _silent_messages (change_directory self d e reply).1.1).
Proof.
  pose proof (change_directory_tracking self d e reply)
    as (Hp & Hf & Hi & Hs).
  rewrite Hp, Hf, Hi, Hs.
  unfold change_directory, execute_silently.
  destruct e; simpl.
  - repeat split; try done.
    intros i _ -> Hi'. simpl. rewrite Hi'. set_solver.
  - repeat split; try done.
Qed.

(** ** The heap of futures *)

(** What the handler does to the heap: nothing, or it completes the one
    future that is registered for the id of the message, which was not
    done. *)
Lemma handle_futures json_loads self msg :
  futures (_handle_iopub_message json_loads self msg).1 = futures self ∨
  ∃ i fut y,
    correlation_id msg = Some i ∧
    _pending_messages self !! i = Some fut ∧
    futures self !! fut = Some Pending ∧
    y ≠ Pending ∧
    futures (_handle_iopub_message json_loads self msg).1
      = <[fut := y]> (futures self).
Proof.
  unfold _handle_iopub_message.
  fold (kind msg) (payload msg). fold (correlation_id msg).
  unfold resolve_tracked.
  destruct (correlation_id msg) as [i|]; [|by left].
  destruct (_pending_messages self !! i) as [fut|] eqn:Hp; [|by left].
  unfold done.
  destruct (futures self !! fut) as [[|v|e]|] eqn:Hf; simpl.
  - destruct (bool_decide _ && bool_decide _).
    + destruct (str_truthy _); [|by left].
      destruct (json_loads _); simpl; right;
        eexists i, fut, _; by repeat split.
    + destruct (is_idle _ _); [|by left].
      simpl. right. by exists i, fut, (Result (PDict [])).
  - destruct (bool_decide _ && bool_decide _); [by left|].
    destruct (is_idle _ _); by left.
  - destruct (bool_decide _ && bool_decide _); [by left|].
    destruct (is_idle _ _); by left.
  - destruct (bool_decide _ && bool_decide _); [by left|].
    destruct (is_idle _ _); by left.
Qed.

Lemma step_futures_length json_loads self k :
  (length (futures self) ≤ length (futures (step json_loads self k).1))%nat.
Proof.
  destruct k; cbn [step].
  - done.
  - done.
  - destruct (execute_silently_tracking self c internal hide_output reply)
      as (_ & Hf & _).
    destruct (execute_silently _ _ _ _ _) as [[self1 r] eff]; simpl in *.
    by rewrite Hf.
  - pose proof (execute_and_get_future_tracking self c reply) as H.
    destruct (execute_and_get_future _ _ _) as [[self1 r] eff]; simpl in *.
    destruct (opt_truthy reply); destruct H as (_ & _ & _ & ->);
      rewrite length_app; lia.
  - pose proof (execute_and_get_future_tracking self
                  (Workspace_query result_var) reply) as H.
    unfold get_workspace_async.
    destruct (execute_and_get_future _ _ _) as [[self1 r] eff]; simpl in *.
    destruct (opt_truthy reply); destruct H as (_ & _ & _ & ->);
      rewrite length_app; lia.
  - destruct (change_directory_tracking self directory path_exists reply)
      as (_ & Hf & _).
    destruct (change_directory _ _ _ _) as [[self1 r] eff]; simpl in *.
    by rewrite Hf.
  - destruct (handle_futures json_loads self msg)
      as [-> | (i & fut & y & _ & _ & _ & _ & ->)]; [done|].
    by rewrite length_insert.
Qed.

(** A call leaves a future that is done as it is. *)
Lemma step_done_future json_loads self k f x :
  futures self !! f = Some x → x ≠ Pending →
  futures (step json_loads self k).1 !! f = Some x.
Proof.
  intros Hf Hx. pose proof (lookup_lt_Some _ _ _ Hf) as Hlt.
  destruct k; cbn [step].
  - done.
  - done.
  - destruct (execute_silently_tracking self c internal hide_output reply)
      as (_ & Hfut & _).
    destruct (execute_silently _ _ _ _ _) as [[self1 r] eff]; simpl in *.
    by rewrite Hfut.
  - pose proof (execute_and_get_future_tracking self c reply) as H.
    destruct (execute_and_get_future _ _ _) as [[self1 r] eff]; simpl in *.
    destruct (opt_truthy reply); destruct H as (_ & _ & _ & ->);
      by rewrite lookup_app_l.
  - pose proof (execute_and_get_future_tracking self
                  (Workspace_query result_var) reply) as H.
    unfold get_workspace_async.
    destruct (execute_and_get_future _ _ _) as [[self1 r] eff]; simpl in *.
    destruct (opt_truthy reply); destruct H as (_ & _ & _ & ->);
      by rewrite lookup_app_l.
  - destruct (change_directory_tracking self directory path_exists reply)
      as (_ & Hfut & _).
    destruct (change_directory _ _ _ _) as [[self1 r] eff]; simpl in *.
    by rewrite Hfut.
  - destruct (handle_futures json_loads self msg)
      as [-> | (i & fut & y & _ & _ & Hpend & _ & ->)]; [done|].
    rewrite list_lookup_insert_ne; [done|].
    intros ->. rewrite Hf in Hpend. by injection Hpend.
Qed.

(** X4. A future is assigned once: after it is done, no call and no
    message changes its result or its exception. *)
Theorem done_future_is_final json_loads self ks f x :
  futures self !! f = Some x →
  x ≠ Pending →
  futures (run json_loads self ks) !! f = Some x.
Proof.
  revert self. induction ks as [|k ks IH]; intros self Hf Hx; simpl.
  - done.
  - apply IH; [|done]. by apply step_done_future.
Qed.

Lemma done_future_is_final_witness :
  futures
    (run loads_atoms querying_tab
       [Handle_iopub_message (stream_msg "m1" "42");
        Handle_iopub_message (stream_msg "m1" "43");
        Handle_iopub_message (idle_msg "m1");
        Get_workspace_async "_workspace_data_1b2c3d4e" (Some "m2")]) !! 0
    = Some (Result (PInt 42)).
Proof.
  apply (done_future_is_final loads_atoms
           (run loads_atoms querying_tab
              [Handle_iopub_message (stream_msg "m1" "42")])
           [Handle_iopub_message (stream_msg "m1" "43");
            Handle_iopub_message (idle_msg "m1");
            Get_workspace_async "_workspace_data_1b2c3d4e" (Some "m2")]
           0 (Result (PInt 42))).
  - by vm_compute.
  - discriminate.
Defined.

Lemma step_heap_wf json_loads self k :
  heap_wf self → heap_wf (step json_loads self k).1.
Proof.
  intros [Hbound Hinj].
  assert (∀ self1 i fut,
            _pending_messages self1
              = <[i := length (futures self)]> (_pending_messages self) →
            futures self1 = futures self ++ [fut] → heap_wf self1) as Hreg.
  { intros self1 i fut Hp Hf. split.
    - intros j f. rewrite Hp, Hf, length_app, lookup_insert_Some. simpl.
      intros [[_ <-] | [_ Hj]]; [lia|]. apply Hbound in Hj. lia.
    - intros j1 j2 f. rewrite Hp, !lookup_insert_Some.
      intros [[<- <-] | [Hne1 H1]] [[<- Hf2] | [Hne2 H2]].
      + done.
      + apply Hbound in H2. lia.
      + apply Hbound in H1. lia.
      + by eapply Hinj. }
  assert (∀ self1,
            _pending_messages self1 = _pending_messages self →
            (length (futures self) ≤ length (futures self1))%nat →
            heap_wf self1) as Hsame.
  { intros self1 Hp Hlen. split.
    - intros j f. rewrite Hp. intros Hj. apply Hbound in Hj. lia.
    - intros j1 j2 f. rewrite Hp. apply Hinj. }
  destruct k; cbn [step].
  - by split.
  - by split.
  - destruct (execute_silently_tracking self c internal hide_output reply)
      as (Hp & Hf & _).
    destruct (execute_silently _ _ _ _ _) as [[self1 r] eff]; simpl in *.
    apply Hsame; [done | by rewrite Hf].
  - pose proof (execute_and_get_future_tracking self c reply) as H.
    destruct (execute_and_get_future _ _ _) as [[self1 r] eff]; simpl in *.
    destruct (opt_truthy reply); destruct H as (Hp & _ & _ & Hf).
    + by eapply Hreg.
    + apply Hsame; [done|]. rewrite Hf, length_app. lia.
  - pose proof (execute_and_get_future_tracking self
                  (Workspace_query result_var) reply) as H.
    unfold get_workspace_async.
    destruct (execute_and_get_future _ _ _) as [[self1 r] eff]; simpl in *.
    destruct (opt_truthy reply); destruct H as (Hp & _ & _ & Hf).
    + by eapply Hreg.
    + apply Hsame; [done|]. rewrite Hf, length_app. lia.
  - destruct (change_directory_tracking self directory path_exists reply)
      as (Hp & Hf & _).
    destruct (change_directory _ _ _ _) as [[self1 r] eff]; simpl in *.
    apply Hsame; [done | by rewrite Hf].
  - pose proof (step_futures_length json_loads self
                  (Handle_iopub_message msg)) as Hlen.
    cbn [step] in Hlen.
    destruct (handle_tracking json_loads self msg)
      as [(Hp & _ & _) | (i & _ & _ & _ & Hp & _ & _)].
    + by apply Hsame.
    + split.
      * intros j f. rewrite Hp, lookup_delete_Some.
        intros [_ Hj]. apply Hbound in Hj. lia.
      * intros j1 j2 f. rewrite Hp, !lookup_delete_Some.
        intros [_ H1] [_ H2]. by eapply Hinj.
Qed.

(** X5. In every tab reached from a new one, each key of
    [_pending_messages] refers to a future of the heap, and two different
    ids never refer to the same future. *)
Theorem reachable_heap_wf json_loads self :
  reachable json_loads self → heap_wf self.
Proof.
  induction 1 as [name | self k _ IH].
  - split; intros i; intros; simplify_map_eq.
  - by apply step_heap_wf.
Qed.

Lemma reachable_heap_wf_witness : heap_wf querying_tab.
Proof.
  apply (reachable_heap_wf loads_atoms), reachable_querying_tab.
Defined.

(** ** What messages do to the tab *)

(** X6. Messages never track anything: whatever messages the handler is
    given, the registrations that remain are registrations that were
    there, with the same futures, both sets can only lose ids, and the heap
    keeps its size.  An id that was cleaned up does not come back. *)
Theorem messages_never_track json_loads self msgs :
  _pending_messages (run json_loads self (Handle_iopub_message <$> msgs))
    ⊆ _pending_messages self ∧
  _internal_messages (run json_loads self (Handle_iopub_message <$> msgs))
    ⊆ _internal_messages self ∧
  _silent_messages (run json_loads self (Handle_iopub_message <$> msgs))
    ⊆ _silent_messages self ∧
  length (futures (run json_loads self (Handle_iopub_message <$> msgs)))
    = length (futures self).
Proof.
  revert self. induction msgs as [|msg msgs IH]; intros self.
  - done.
  - change (run json_loads self (Handle_iopub_message <$> msg :: msgs))
      with (run json_loads (_handle_iopub_message json_loads self msg).1
              (Handle_iopub_message <$> msgs)).
    destruct (IH (_handle_iopub_message json_loads self msg).1)
      as (Hp & Hi & Hs & Hl).
    assert (length (futures (_handle_iopub_message json_loads self msg).1)
            = length (futures self)) as Hlen.
    { destruct (handle_futures json_loads self msg)
        as [-> | (i & fut & y & _ & _ & _ & _ & ->)]; [done|].
      by rewrite length_insert. }
    destruct (handle_tracking json_loads self msg)
      as [(Hp1 & Hi1 & Hs1) | (i & _ & _ & _ & Hp1 & Hi1 & Hs1)];
      rewrite Hp1 in Hp; rewrite Hi1 in Hi; rewrite Hs1 in Hs.
    + repeat split; try done. congruence.
    + repeat split; [|set_solver|set_solver|congruence].
      etrans; [exact Hp|]. apply delete_subseteq.
Qed.

(** X7. A message that answers no tracked request, because it carries no
    correlation id or one that is not a key of [_pending_messages], leaves
    the tab exactly as it was and logs nothing. *)
Theorem untracked_message json_loads self msg :
  (∀ i, correlation_id msg = Some i → _pending_messages self !! i = None) →
  (_handle_iopub_message json_loads self msg).1 = self ∧
  ∀ e, Logger_error e ∉ (_handle_iopub_message json_loads self msg).2.
Proof.
  intros Hun. unfold _handle_iopub_message.
  fold (kind msg) (payload msg). fold (correlation_id msg).
  assert (resolve_tracked json_loads self (kind msg) (payload msg)
            (correlation_id msg) = (self, [])) as ->.
  { unfold resolve_tracked. destruct (correlation_id msg) as [i|]; [|done].
    by rewrite (Hun i eq_refl). }
  split; [done|]. intros e. simpl. rewrite elem_of_app, forward_spec.
  intros [Hin | [[=] _]].
  apply completion_signals_shape in Hin as [(o & c' & [=]) | [=]].
Qed.

Lemma untracked_message_witness :
  (_handle_iopub_message loads_atoms querying_tab (stream_msg "m7" "hello")).1
    = querying_tab.
Proof.
  apply (untracked_message loads_atoms querying_tab (stream_msg "m7" "hello")).
  intros i [= <-]. reflexivity.
Defined.

Lemma emissions_app effs1 effs2 :
  emissions (effs1 ++ effs2) = emissions effs1 ++ emissions effs2.
Proof. apply omap_app. Qed.

Lemma timers_app effs1 effs2 :
  timers (effs1 ++ effs2) = timers effs1 ++ timers effs2.
Proof. apply omap_app. Qed.

Lemma forwarded_app effs1 effs2 :
  forwarded (effs1 ++ effs2) = forwarded effs1 ++ forwarded effs2.
Proof. apply omap_app. Qed.

Lemma resolve_silent json_loads self mt c mid :
  emissions (resolve_tracked json_loads self mt c mid).2 = [] ∧
  timers (resolve_tracked json_loads self mt c mid).2 = [] ∧
  forwarded (resolve_tracked json_loads self mt c mid).2 = [].
Proof.
  unfold resolve_tracked.
  destruct mid as [i|]; [|done].
  destruct (_pending_messages self !! i) as [fut|]; [|done].
  destruct (bool_decide _ && bool_decide _).
  - destruct (negb _); [|done]. destruct (str_truthy _); [|done].
    by destruct (json_loads _).
  - by destruct (is_idle _ _).
Qed.

Lemma completion_signals_emissions self msg sil :
  (length (emissions (completion_signals self (kind msg) (payload msg)
                        (correlation_id msg) sil)) ≤ 1)%nat ∧
  timers (completion_signals self (kind msg) (payload msg)
            (correlation_id msg) sil)
    = (λ _, 100%Z) <$> emissions (completion_signals self (kind msg)
                                    (payload msg) (correlation_id msg) sil) ∧
  forwarded (completion_signals self (kind msg) (payload msg)
               (correlation_id msg) sil) = [] ∧
  ∀ o c, (o, c) ∈ emissions (completion_signals self (kind msg) (payload msg)
                               (correlation_id msg) sil) →
         (idle_status msg ∧ o = "" ∧ c = empty_content) ∨
         (output_bearing msg ∧ o = signalled_text msg ∧ c = payload msg).
Proof.
  unfold completion_signals, is_idle, signalled_text, output_bearing,
    idle_status, emit_execution_complete, _on_execution_complete.
  destruct (negb (opt_in _ _)); [|by repeat split; intros; set_solver].
  destruct (negb sil); simpl;
    repeat case_bool_decide; simpl;
    try (match goal with
         | H1 : kind msg = _, H2 : kind msg = _ |- _ =>
             rewrite H1 in H2; discriminate
         end);
    (split; [lia|]); (split; [done|]); (split; [done|]);
    intros o c Hin; set_unfold; destruct_or?; simplify_eq;
    try (left; done);
    right; (split; [|done]); match goal with
                             | H : kind msg = _ |- _ => rewrite H
                             end; set_solver.
Qed.

(** X8. One message makes the handler emit [execution_complete] at most
    once, arm one timer of 100 ms for each emission and pass on at most one
    message.  The emission of an idle status carries the empty text and an
    empty content; any other emission comes from an output-bearing message
    and carries its content and its text: the text of a stream, the
    [text/plain] of a result or of display data, the joined traceback of an
    error. *)
Theorem emission_shape json_loads self msg :
  (length (emissions (_handle_iopub_message json_loads self msg).2) ≤ 1)%nat ∧
  timers (_handle_iopub_message json_loads self msg).2
    = (λ _, 100%Z) <$> emissions (_handle_iopub_message json_loads self msg).2 ∧
  (length (forwarded (_handle_iopub_message json_loads self msg).2) ≤ 1)%nat ∧
  ∀ o c, (o, c) ∈ emissions (_handle_iopub_message json_loads self msg).2 →
         (idle_status msg ∧ o = "" ∧ c = empty_content) ∨
         (output_bearing msg ∧ o = signalled_text msg ∧ c = payload msg).
Proof.
  unfold _handle_iopub_message.
  fold (kind msg) (payload msg). fold (correlation_id msg).
  pose proof (resolve_silent json_loads self (kind msg) (payload msg)
                (correlation_id msg)) as (He1 & Ht1 & Hf1).
  destruct (resolve_tracked _ _ _ _ _) as [self1 eff1]; simpl in *.
  pose proof (completion_signals_emissions self1 msg
                (opt_in (correlation_id msg) (_silent_messages self)))
    as (Hlen & Htim & Hfw & Hpay).
  assert (emissions (forward msg (kind msg)
                       (opt_in (correlation_id msg) (_silent_messages self)))
          = [] ∧
          timers (forward msg (kind msg)
                    (opt_in (correlation_id msg) (_silent_messages self)))
          = [] ∧
          (length (forwarded (forward msg (kind msg)
                     (opt_in (correlation_id msg) (_silent_messages self))))
           ≤ 1)%nat) as (He3 & Ht3 & Hf3).
  { unfold forward. destruct (negb _ || negb _); simpl; repeat split; lia. }
  rewrite !emissions_app, !timers_app, !forwarded_app.
  rewrite He1, Ht1, Hf1, He3, Ht3, Hfw, app_nil_r. simpl.
  rewrite app_nil_r. done.
Qed.

(** X26. A message of a request that the tab does not track or flag, as
    the messages of code run through the widget, and a message without a
    correlation id: the handler passes it on to the widget, after an
    [execution_complete] with its text when it bears output, or with the
    empty text and an empty content when it is an idle status; each
    emission arms the refresh timer. *)
Theorem visible_message json_loads self msg :
  (∀ i, correlation_id msg = Some i →
        _pending_messages self !! i = None ∧
        (i ∉ _internal_messages self) ∧ (i ∉ _silent_messages self)) →
  (idle_status msg →
   (_handle_iopub_message json_loads self msg).2
     = [Execution_complete "" empty_content; QTimer_singleShot 100;
        Original_iopub_handler msg]) ∧
  (output_bearing msg →
   (_handle_iopub_message json_loads self msg).2
     = [Execution_complete (signalled_text msg) (payload msg);
        QTimer_singleShot 100; Original_iopub_handler msg]) ∧
  (¬ idle_status msg → ¬ output_bearing msg →
   (_handle_iopub_message json_loads self msg).2
     = [Original_iopub_handler msg]).
Proof.
  intros Hun. unfold _handle_iopub_message.
  fold (kind msg) (payload msg). fold (correlation_id msg).
  assert (resolve_tracked json_loads self (kind msg) (payload msg)
            (correlation_id msg) = (self, [])) as ->.
  { unfold resolve_tracked. destruct (correlation_id msg) as [i|]; [|done].
    by destruct (Hun i eq_refl) as [-> _]. }
  assert (opt_in (correlation_id msg) (_internal_messages self) = false
          ∧ opt_in (correlation_id msg) (_silent_messages self) = false)
    as [Hint Hsil].
  { destruct (correlation_id msg) as [i|]; [|done]. simpl.
    destruct (Hun i eq_refl) as (_ & Hi & Hs).
    by rewrite !bool_decide_eq_false_2. }
  unfold completion_signals, forward, emit_execution_complete,
    _on_execution_complete. rewrite Hint, Hsil.
  cbn [snd negb andb orb app].
  unfold output_bearing. rewrite <- is_idle_spec, <- output_kind_spec.
  unfold signalled_text, output_kind, is_idle.
  refine (conj _ (conj _ _)).
  - intros [Hst Hidle]%andb_true_iff.
    apply bool_decide_eq_true in Hst as Hst'.
    rewrite Hst, Hidle, Hst'. by simpl.
  - intros Hout.
    destruct (bool_decide_reflect (kind msg = "status")) as [Hst|];
      [rewrite Hst in Hout; by vm_compute in Hout|].
    simpl. repeat case_bool_decide; try congruence; by simpl in Hout.
  - intros Hidle Hout. apply not_true_is_false in Hidle, Hout.
    rewrite Hidle. apply orb_false_iff in Hout as [[[H1 H2]%orb_false_iff
      H3]%orb_false_iff H4]. by rewrite H1, H2, H3, H4.
Qed.

Lemma visible_message_witness :
  (_handle_iopub_message loads_atoms querying_tab (stream_msg "m7" "hello")).2
    = [Execution_complete "hello" (payload (stream_msg "m7" "hello"));
       QTimer_singleShot 100; Original_iopub_handler (stream_msg "m7" "hello")].
Proof.
  assert (∀ i, correlation_id (stream_msg "m7" "hello") = Some i →
               _pending_messages querying_tab !! i = None ∧
               (i ∉ _internal_messages querying_tab) ∧
               (i ∉ _silent_messages querying_tab)) as Hun.
  { intros i [= <-]. split; [reflexivity|].
    split; apply (bool_decide_unpack _); by vm_compute. }
  apply (visible_message loads_atoms querying_tab (stream_msg "m7" "hello")
           Hun).
  unfold output_bearing. set_solver.
Defined.

(** ** Messages of a tracked request *)

(** X9. In a reachable tab the idle status of a tracked request is passed
    on to the widget and does nothing else that can be seen: no
    [execution_complete], no timer, no line in the log. *)
Theorem tracked_idle_is_quiet json_loads self msg i fut :
  reachable json_loads self →
  idle_status msg →
  correlation_id msg = Some i →
  _pending_messages self !! i = Some fut →
  (_handle_iopub_message json_loads self msg).2 = [Original_iopub_handler msg].
Proof.
  intros Hr [Hst Hidle] Hid Hp.
  destruct (reachable_pending_flagged json_loads self Hr i) as [_ Hsil];
    [by eexists|].
  assert (is_idle (kind msg) (payload msg) = true) as Hi.
  { apply is_idle_spec. by split. }
  unfold _handle_iopub_message.
  fold (kind msg) (payload msg). fold (correlation_id msg).
  unfold resolve_tracked. rewrite Hid, Hp, Hi.
  rewrite (bool_decide_eq_false_2 (kind msg = "stream")) by (by rewrite Hst).
  cbn [andb]. cbn [opt_in]. rewrite (bool_decide_eq_true_2 _ Hsil).
  unfold completion_signals, forward, output_kind. rewrite Hst.
  cbn [negb andb app].
  rewrite !(bool_decide_eq_false_2 ("status" = _)) by done.
  destruct (negb (opt_in _ _)); reflexivity.
Qed.

Lemma tracked_idle_is_quiet_witness :
  (_handle_iopub_message loads_atoms querying_tab (idle_msg "m1")).2
    = [Original_iopub_handler (idle_msg "m1")].
Proof.
  apply (tracked_idle_is_quiet loads_atoms querying_tab (idle_msg "m1") "m1" 0
           (reachable_querying_tab loads_atoms)).
  - by split.
  - reflexivity.
  - reflexivity.
Defined.

(** X10. In a reachable tab an output-bearing message of a tracked request
    is kept from the widget and signals nothing: the handler emits no
    [execution_complete], arms no timer and passes nothing on; all that it
    may leave is the log line of a parser exception. *)
Theorem tracked_output_is_hidden json_loads self msg i fut :
  reachable json_loads self →
  output_bearing msg →
  correlation_id msg = Some i →
  _pending_messages self !! i = Some fut →
  (_handle_iopub_message json_loads self msg).2 = [] ∨
  ∃ e, (_handle_iopub_message json_loads self msg).2 = [Logger_error e].
Proof.
  intros Hr Hout Hid Hp.
  destruct (reachable_pending_flagged json_loads self Hr i) as [Hint Hsil];
    [by eexists|].
  assert (is_idle (kind msg) (payload msg) = false) as Hi.
  { unfold is_idle. destruct (bool_decide_reflect (kind msg = "status"))
      as [Hst|]; [|done].
    unfold output_bearing in Hout. rewrite Hst in Hout. set_solver. }
  apply output_kind_spec in Hout.
  unfold _handle_iopub_message.
  fold (kind msg) (payload msg). fold (correlation_id msg).
  assert (∀ self1 eff1,
            _internal_messages self1 = _internal_messages self →
            eff1 ++ completion_signals self1 (kind msg) (payload msg)
                      (correlation_id msg)
                      (opt_in (correlation_id msg) (_silent_messages self))
                 ++ forward msg (kind msg)
                      (opt_in (correlation_id msg) (_silent_messages self))
            = eff1) as Hrest.
  { intros self1 eff1 Heq. unfold completion_signals, forward.
    rewrite Heq, Hid, Hout. cbn [opt_in].
    rewrite (bool_decide_eq_true_2 _ Hsil), (bool_decide_eq_true_2 _ Hint).
    simpl. by rewrite app_nil_r. }
  rewrite Hid in Hrest.
  unfold resolve_tracked. rewrite Hid, Hp, Hi.
  destruct (bool_decide _ && bool_decide _).
  - destruct (negb (done self fut)); [|left; exact (Hrest self [] eq_refl)].
    destruct (str_truthy _); [|left; exact (Hrest self [] eq_refl)].
    destruct (json_loads _) as [v| |e].
    + left. exact (Hrest (set_result self fut v) [] eq_refl).
    + left. exact (Hrest (set_result self fut _) [] eq_refl).
    + right. exists e.
      exact (Hrest (set_exception self fut e) [Logger_error e] eq_refl).
  - left. exact (Hrest self [] eq_refl).
Qed.

Lemma tracked_output_is_hidden_witness :
  (_handle_iopub_message loads_atoms querying_tab (stream_msg "m1" "{}")).2
    = [] ∨
  ∃ e, (_handle_iopub_message loads_atoms querying_tab
          (stream_msg "m1" "{}")).2 = [Logger_error e].
Proof.
  apply (tracked_output_is_hidden loads_atoms querying_tab
           (stream_msg "m1" "{}") "m1" 0 (reachable_querying_tab loads_atoms)).
  - unfold output_bearing. set_solver.
  - reflexivity.
  - reflexivity.
Defined.

(** X11. The round trip of a query.  After [get_workspace_async] was
    answered with the id [i], a stream message of [i] whose stripped text
    parses, followed by the idle status of [i]: the future holds the parsed
    value, which the idle status does not replace by [{}], and [i] has left
    the three structures. *)
Theorem query_round_trip json_loads self result_var i out idle t v :
  str_truthy i = true →
  kind out = "stream" →
  text (payload out) = Some t →
  correlation_id out = Some i →
  strip t ≠ "" →
  json_loads (strip t) = Loaded v →
  idle_status idle →
  correlation_id idle = Some i →
  futures
    (run json_loads (get_workspace_async self result_var (Some i)).1.1
       [Handle_iopub_message out; Handle_iopub_message idle])
    !! (get_workspace_async self result_var (Some i)).1.2
    = Some (Result v) ∧
  _pending_messages
    (run json_loads (get_workspace_async self result_var (Some i)).1.1
       [Handle_iopub_message out; Handle_iopub_message idle]) !! i = None ∧
  (i ∉ _internal_messages
         (run json_loads (get_workspace_async self result_var (Some i)).1.1
            [Handle_iopub_message out; Handle_iopub_message idle])) ∧
  (i ∉ _silent_messages
         (run json_loads (get_workspace_async self result_var (Some i)).1.1
            [Handle_iopub_message out; Handle_iopub_message idle])).
Proof.
  intros Hi Hk Ht Hid Hne Hv Hidle Hid2.
  unfold get_workspace_async.
  pose proof (execute_and_get_future_tracking self
                (Workspace_query result_var) (Some i)) as H.
  simpl in H. rewrite Hi in H. destruct H as (Hp & _ & _ & Hf).
  assert ((execute_and_get_future self (Workspace_query result_var)
             (Some i)).1.2 = length (futures self)) as ->.
  { unfold execute_and_get_future, execute_silently. simpl. by rewrite Hi. }
  set (self1 := (execute_and_get_future self (Workspace_query result_var)
                   (Some i)).1.1) in *.
  assert (_pending_messages self1 !! i = Some (length (futures self))) as Hp1.
  { rewrite Hp. apply lookup_insert_eq. }
  assert (futures self1 !! length (futures self) = Some Pending) as Hf1.
  { by rewrite Hf, lookup_app_r, Nat.sub_diag. }
  cbn [run fold_left step].
  pose proof (handle_stream json_loads self1 out i _ t Hk Ht Hid Hp1) as Hs.
  rewrite (not_done self1 _ Hf1) in Hs. unfold str_truthy in Hs.
  rewrite bool_decide_eq_false_2 in Hs by done. simpl in Hs. rewrite Hv in Hs.
  rewrite Hs.
  destruct (handle_idle json_loads (set_result self1 (length (futures self)) v)
              idle i (length (futures self)) Hidle Hid2 Hp1)
    as (Hfut & _ & Hgone & Hint & Hsil).
  split; [|done].
  rewrite Hfut. unfold done. simpl.
  rewrite list_lookup_insert_eq by (by eapply lookup_lt_Some).
  apply list_lookup_insert_eq. by eapply lookup_lt_Some.
Qed.

Lemma query_round_trip_witness :
  futures
    (run loads_atoms
       (get_workspace_async fresh_tab "_workspace_data_0a1b2c3d"
          (Some "m1")).1.1
       [Handle_iopub_message (stream_msg "m1" ("{}" ++ newline)%string);
        Handle_iopub_message (idle_msg "m1")])
    !! (get_workspace_async fresh_tab "_workspace_data_0a1b2c3d"
          (Some "m1")).1.2
    = Some (Result (PDict [])).
Proof.
  apply (query_round_trip loads_atoms fresh_tab "_workspace_data_0a1b2c3d"
           "m1" (stream_msg "m1" ("{}" ++ newline)%string) (idle_msg "m1")
           ("{}" ++ newline)%string (PDict [])); try reflexivity.
  - by vm_compute.
  - by split.
Defined.

(** ** Interrupt and restart *)

Lemma handle_has_kernel json_loads self msg :
  has_kernel (_handle_iopub_message json_loads self msg).1 = has_kernel self.
Proof.
  unfold _handle_iopub_message, resolve_tracked.
  destruct (msg_id _) as [i|]; [|done].
  destruct (_pending_messages self !! i) as [fut|]; [|done].
  destruct (bool_decide _ && bool_decide _).
  - destruct (negb _); [|done]. destruct (str_truthy _); [|done].
    by destruct (json_loads _).
  - destruct (is_idle _ _); [|done]. by destruct (negb _).
Qed.

Lemma step_has_kernel json_loads self k :
  has_kernel (step json_loads self k).1 = has_kernel self.
Proof.
  destruct k; cbn [step].
  - done.
  - done.
  - unfold execute_silently. by destruct (opt_truthy reply).
  - unfold execute_and_get_future, execute_silently. simpl.
    by destruct (opt_truthy reply).
  - unfold get_workspace_async, execute_and_get_future, execute_silently.
    simpl. by destruct (opt_truthy reply).
  - unfold change_directory, execute_silently.
    by destruct path_exists, (opt_truthy reply).
  - apply handle_has_kernel.
Qed.

(** X12. In a tab reached from a new one by dispatches and messages,
    [interrupt_kernel] and [restart_kernel] answer [True] and ask for one
    interrupt, one restart; once the kernel is shut down they answer
    [False] and ask for nothing.  Either way the tab stays as it is: the
    future of an interrupted request is not resolved by the interrupt. *)
Theorem interrupt_needs_kernel json_loads self :
  reachable json_loads self →
  interrupt_kernel self = (self, true, [Manager_interrupt_kernel]) ∧
  restart_kernel self = (self, true, [Widget_request_restart_kernel]) ∧
  interrupt_kernel (shutdown_kernel self).1
    = ((shutdown_kernel self).1, false, []) ∧
  restart_kernel (shutdown_kernel self).1
    = ((shutdown_kernel self).1, false, []).
Proof.
  intros Hr.
  assert (has_kernel self = true) as Hk.
  { induction Hr as [name | self k _ IH]; [done|].
    by rewrite step_has_kernel. }
  unfold interrupt_kernel, restart_kernel. by rewrite Hk.
Qed.

Lemma interrupt_needs_kernel_witness :
  interrupt_kernel querying_tab
    = (querying_tab, true, [Manager_interrupt_kernel]).
Proof.
  by destruct (interrupt_needs_kernel loads_atoms querying_tab
                 (reachable_querying_tab loads_atoms)) as (Hi & _).
Defined.

(** * Further properties of the tabbed console *)

Lemma widget_None self index :
  widget self index = None ↔
  (index < 0 ∨ Z.of_nat (length (tab_widget self)) ≤ index)%Z.
Proof.
  unfold widget. destruct (Z.leb_spec 0 index) as [Hle | Hlt].
  - rewrite lookup_ge_None. lia.
  - split; [lia | done].
Qed.

(** X13. [close_tab] on an index that is not the index of a page, negative
    or past the last page, does nothing: the console is unchanged and no
    kernel is shut down. *)
Theorem close_tab_out_of_range self index :
  (index < 0 ∨ Z.of_nat (length (tab_widget self)) ≤ index)%Z →
  close_tab self index = (self, []).
Proof.
  intros Hout. apply widget_None in Hout.
  unfold close_tab. by rewrite Hout.
Qed.

Lemma close_tab_out_of_range_witness :
  close_tab (JupyterConsole_init "python3") (-1)
    = (JupyterConsole_init "python3", []).
Proof.
  apply (close_tab_out_of_range (JupyterConsole_init "python3") (-1)).
  left. lia.
Defined.







(** ** The console on its current page *)

Lemma with_page_other self index page n :
  n ≠ Z.to_nat index →
  tab_widget (Dock.with_page self index page) !! n = tab_widget self !! n.
Proof. intros Hne. simpl. by apply list_lookup_insert_ne. Qed.

(** X17. The routines of the console that execute code, run a file or
    change the directory act on the current page only: without a current
    page they do nothing (and [change_directory] answers [False]); with one,
    every other page and the number of pages are as before. *)
Theorem dock_acts_on_current_page self current c silent reply filepath d e :
  (Dock.get_current_console self current = None →
   Dock.execute_code self current c silent reply = (self, []) ∧
   Dock.execute_file self current filepath = (self, []) ∧
   Dock.change_directory self current d e reply = (self, false, [])) ∧
  (∀ n, n ≠ Z.to_nat current →
     tab_widget (Dock.execute_code self current c silent reply).1 !! n
       = tab_widget self !! n ∧
     tab_widget (Dock.execute_file self current filepath).1 !! n
       = tab_widget self !! n ∧
     tab_widget (Dock.change_directory self current d e reply).1.1 !! n
       = tab_widget self !! n) ∧
  length (tab_widget (Dock.execute_code self current c silent reply).1)
    = length (tab_widget self) ∧
  length (tab_widget (Dock.execute_file self current filepath).1)
    = length (tab_widget self) ∧
  length (tab_widget (Dock.change_directory self current d e reply).1.1)
    = length (tab_widget self).
Proof.
  unfold Dock.execute_code, Dock.execute_file, Dock.change_directory.
  destruct (Dock.get_current_console self current) as [page|].
  - split; [done|].
    destruct (execute_silently page c false true reply) as [[p1 r1] e1].
    destruct (execute_code page c) as [p2 e2].
    destruct (execute_file page filepath) as [p3 e3].
    destruct (change_directory page d e reply) as [[p4 r4] e4].
    destruct silent; simpl; rewrite !length_insert;
      (split; [|done]); intros n Hne; by rewrite !list_lookup_insert_ne.
  - done.
Qed.

(** X18. Code that the console executes with [silent=True] on its current
    page, answered with an id [i] that the page does not track: the page
    flags [i] as silent.  An output-bearing message of [i] is then kept
    from the widget, yet it is signalled by [execution_complete], with its
    text, and arms the refresh timer; the idle status of [i] is passed on
    to the widget and is not signalled. *)
Theorem dock_silent_execution json_loads self current page c i out idle :
  Dock.get_current_console self current = Some page →
  str_truthy i = true →
  i ∉ _internal_messages page →
  _pending_messages page !! i = None →
  output_bearing out →
  correlation_id out = Some i →
  idle_status idle →
  correlation_id idle = Some i →
  widget (Dock.execute_code self current c true (Some i)).1 current
    = Some (sent_silently page c false true (Some i)) ∧
  (_handle_iopub_message json_loads
     (sent_silently page c false true (Some i)) out).2
    = [Execution_complete (signalled_text out) (payload out);
       QTimer_singleShot 100] ∧
  (_handle_iopub_message json_loads
     (sent_silently page c false true (Some i)) idle).2
    = [Original_iopub_handler idle].
Proof.
  intros Hcur Hi Hint Hp Hout Hid [Hst Hidle] Hid2.
  split.
  { unfold Dock.execute_code. rewrite Hcur.
    unfold sent_silently. unfold Dock.get_current_console in Hcur.
    destruct (execute_silently page c false true (Some i)) as [[p1 r1] e1].
    unfold widget in *. simpl.
    destruct (0 <=? current)%Z; [|done].
    apply list_lookup_insert_eq. by eapply lookup_lt_Some. }
  unfold sent_silently, execute_silently. simpl. rewrite Hi. simpl.
  unfold _handle_iopub_message.
  fold (kind out) (payload out) (kind idle) (payload idle).
  fold (correlation_id out) (correlation_id idle).
  unfold resolve_tracked. rewrite Hid, Hid2. simpl. rewrite Hp.
  rewrite (bool_decide_eq_true_2 (i ∈ _silent_messages page ∪ {[i]}))
    by set_solver.
  unfold completion_signals, forward, emit_execution_complete,
    _on_execution_complete. simpl.
  rewrite (bool_decide_eq_false_2 (i ∈ _internal_messages page)) by done.
  simpl. split.
  - unfold output_bearing in Hout. unfold signalled_text, output_kind.
    rewrite !elem_of_cons, elem_of_nil in Hout.
    destruct Hout as [-> | [-> | [-> | [-> | []]]]]; reflexivity.
  - unfold output_kind. rewrite Hst. reflexivity.
Qed.

Lemma dock_silent_execution_witness :
  (_handle_iopub_message loads_atoms
     (sent_silently fresh_tab (Source "print(1)") false true (Some "m1"))
     (stream_msg "m1" "1")).2
    = [Execution_complete "1" (payload (stream_msg "m1" "1"));
       QTimer_singleShot 100].
Proof.
  assert ("m1" ∉ _internal_messages fresh_tab) as Hint by set_solver.
  assert (output_bearing (stream_msg "m1" "1")) as Hout.
  { unfold output_bearing. set_solver. }
  exact (proj1 (proj2 (dock_silent_execution loads_atoms
                         (JupyterConsole_init "python3") 0 fresh_tab
                         (Source "print(1)") "m1" (stream_msg "m1" "1")
                         (idle_msg "m1") eq_refl eq_refl Hint eq_refl Hout
                         eq_refl (conj eq_refl eq_refl) eq_refl))).
Defined.

(** X19. [_on_tab_changed] on an index that is not the index of a page, as
    the index -1, raises [AttributeError]; on the index of a page it sends
    one workspace query from that page and leaves the other pages as they
    were. *)
Theorem tab_changed emit_other self index result_var reply :
  ((index < 0 ∨ Z.of_nat (length (tab_widget self)) ≤ index)%Z →
   Dock._on_tab_changed emit_other self index result_var reply
     = Workspace.Raises Dock.no_update_workspace) ∧
  (∀ page, widget self index = Some page →
     ∃ self1 weff,
       Dock._on_tab_changed emit_other self index result_var reply
         = Workspace.Returns
             (self1, [Kernel_client_execute (Workspace_query result_var)
                        true false], weff) ∧
       widget self1 index
         = Some (get_workspace_async page result_var reply).1.1 ∧
       ∀ n, n ≠ Z.to_nat index →
            tab_widget self1 !! n = tab_widget self !! n).
Proof.
  split.
  - intros Hout. apply widget_None in Hout.
    unfold Dock._on_tab_changed. by rewrite Hout.
  - intros page Hw. unfold Dock._on_tab_changed, update_workspace.
    rewrite Hw.
    assert ((get_workspace_async page result_var reply).2
            = [Kernel_client_execute (Workspace_query result_var) true false])
      as Heff.
    { unfold get_workspace_async, execute_and_get_future, execute_silently.
      simpl. by destruct (opt_truthy reply). }
    destruct (get_workspace_async page result_var reply)
      as [[page1 fut] eff]. simpl in *. subst eff.
    eexists _, _. split; [reflexivity|]. split.
    + unfold widget in *. simpl. destruct (0 <=? index)%Z; [|done].
      apply list_lookup_insert_eq. by eapply lookup_lt_Some.
    + intros n Hne. by apply list_lookup_insert_ne.
Qed.

(** * Further properties of the refresh *)

(** X20. The done-callback of a refresh emits [workspace_updated] once: with
    the mapping when the future holds one, with [{}] when it holds an
    exception, and with the result or, if the signal refuses it, with [{}]
    when the result is not a mapping. *)
Theorem refresh_callback_emits_once emit_other :
  (∀ items, updates (_on_workspace_update_complete emit_other
                       (Result (PDict items))) = [PDict items]) ∧
  (∀ e, updates (_on_workspace_update_complete emit_other (Exception e))
        = [PDict []]) ∧
  (∀ v, updates (_on_workspace_update_complete emit_other (Result v)) = [v] ∨
        updates (_on_workspace_update_complete emit_other (Result v))
        = [PDict []]).
Proof.
  split; [done|]. split; [done|].
  intros v. simpl. destruct (emit_workspace_updated emit_other v); auto.
Qed.

Lemma callback_length emit_other f :
  f ≠ Pending →
  length (updates (_on_workspace_update_complete emit_other f)) = 1.
Proof.
  destruct f as [|v|e]; [done| |done].
  intros _. simpl. by destruct (emit_workspace_updated emit_other v).
Qed.

Lemma updates_app weffs1 weffs2 :
  updates (weffs1 ++ weffs2) = updates weffs1 ++ updates weffs2.
Proof. apply omap_app. Qed.

Lemma NoDup_list_filter {A} (p : A → bool) (l : list A) :
  NoDup l → NoDup (List.filter p l).
Proof.
  induction 1 as [|x l Hx _ IH]; simpl; [constructor|].
  destruct (p x); [|done].
  constructor; [|done]. rewrite list_elem_of_In, filter_In.
  intros [Hin _]. by apply Hx, list_elem_of_In.
Qed.

Section RefreshFacts.

Variable json_loads : string → loads_outcome.
Variable emit_other : pyval → option pyexc.

Lemma refresh_step w result_var reply :
  watched_wf w →
  watched_wf (refresh emit_other w result_var reply).1.1 ∧
  length (updates (refresh emit_other w result_var reply).2)
  + length (awaiting (refresh emit_other w result_var reply).1.1)
  = S (length (awaiting w)).
Proof.
  intros [Hnd Hpend]. unfold refresh, update_workspace, get_workspace_async.
  pose proof (execute_and_get_future_tracking (the_tab w)
                (Workspace_query result_var) reply) as H.
  assert ((execute_and_get_future (the_tab w) (Workspace_query result_var)
             reply).1.2 = length (futures (the_tab w))) as Hfut.
  { unfold execute_and_get_future, execute_silently. simpl.
    by destruct (opt_truthy reply). }
  destruct (execute_and_get_future _ _ _) as [[self1 fut] eff].
  simpl in *. subst fut.
  assert (∀ f, f ∈ awaiting w → (f < length (futures (the_tab w)))%nat)
    as Hlt.
  { intros f Hf. by eapply lookup_lt_Some, Hpend. }
  destruct (opt_truthy reply); destruct H as (_ & _ & _ & Hf);
    unfold done; rewrite Hf, lookup_app_r, Nat.sub_diag by done; simpl.
  - split; [split|].
    + apply NoDup_app. split; [done|]. split; [|apply NoDup_singleton].
      intros f Hin ->%list_elem_of_singleton. apply Hlt in Hin. lia.
    + intros f [Hin | ->%list_elem_of_singleton]%elem_of_app; simpl.
      * rewrite Hf, lookup_app_l by auto. auto.
      * by rewrite Hf, lookup_app_r, Nat.sub_diag.
    + rewrite length_app. simpl. lia.
  - split; [split; [done|]|].
    + intros f Hin. simpl. rewrite Hf, lookup_app_l by auto. auto.
    + by destruct (emit_other PNone).
Qed.

Lemma deliver_step w msg :
  watched_wf w →
  watched_wf (deliver json_loads emit_other w msg).1.1 ∧
  length (updates (deliver json_loads emit_other w msg).2)
  + length (awaiting (deliver json_loads emit_other w msg).1.1)
  = length (awaiting w).
Proof.
  intros [Hnd Hpend]. unfold deliver.
  assert (length (futures (_handle_iopub_message json_loads (the_tab w) msg).1)
          = length (futures (the_tab w))) as Hlen.
  { destruct (handle_futures json_loads (the_tab w) msg)
      as [-> | (i & fut & y & _ & _ & _ & _ & ->)]; [done|].
    by rewrite length_insert. }
  destruct (_handle_iopub_message json_loads (the_tab w) msg)
    as [self1 eff]. simpl in *.
  split; [split|].
  - by apply NoDup_list_filter.
  - intros f. simpl. rewrite list_elem_of_In, filter_In, <- list_elem_of_In.
    intros [Hin Hdone]. unfold done in Hdone.
    assert (is_Some (futures self1 !! f)) as [y Hy].
    { apply lookup_lt_is_Some. rewrite Hlen.
      by eapply lookup_lt_Some, Hpend. }
    rewrite Hy in *. by destruct y.
  - rewrite <- (filter_length (done self1) (awaiting w)). f_equal.
    assert (∀ l, (∀ f, f ∈ l → f ∈ awaiting w) →
              length (updates
                        (List.filter (done self1) l
                           ≫= λ f, _on_workspace_update_complete emit_other
                                     (default Pending (futures self1 !! f))))
              = length (List.filter (done self1) l)) as Hcount.
    { induction l as [|f l IH]; intros Hl; [done|]. simpl.
      destruct (done self1 f) eqn:Hdone.
      - rewrite bind_cons, updates_app, length_app. simpl.
        rewrite IH by (intros; apply Hl; set_solver).
        rewrite callback_length; [lia|]. unfold done in Hdone.
        assert (is_Some (futures self1 !! f)) as [y Hy].
        { apply lookup_lt_is_Some. rewrite Hlen.
          eapply lookup_lt_Some, Hpend, Hl. set_solver. }
        rewrite Hy in *. simpl. by destruct y.
      - apply IH. intros; apply Hl; set_solver. }
    by apply Hcount.
Qed.

End RefreshFacts.

(** X21. Every refresh emits [workspace_updated] exactly once, when its
    future is completed, and not before.  After any sequence of refreshes
    and deliveries, the number of emissions and the number of refreshes
    whose future is not done add up to the number of refreshes; a refresh
    whose request could not be sent emits at once. *)
Theorem every_refresh_updates_once json_loads emit_other w ks :
  watched_wf w →
  watched_wf (watched_run json_loads emit_other w ks).1 ∧
  length (updates (watched_run json_loads emit_other w ks).2)
  + length (awaiting (watched_run json_loads emit_other w ks).1)
  = length (awaiting w) + length (List.filter is_refresh ks).
Proof.
  revert w. induction ks as [|k ks IH]; intros w Hwf.
  - simpl. split; [done | lia].
  - cbn [watched_run].
    destruct k as [result_var reply | msg].
    + destruct (refresh_step emit_other w result_var reply Hwf)
        as [Hwf1 Hcount1].
      destruct (refresh emit_other w result_var reply) as [[w1 eff] weff].
      simpl in *. destruct (IH w1 Hwf1) as [Hwf2 Hcount2].
      destruct (watched_run json_loads emit_other w1 ks) as [w2 weff2].
      simpl in *. split; [done|].
      rewrite updates_app, length_app. lia.
    + destruct (deliver_step json_loads emit_other w msg Hwf)
        as [Hwf1 Hcount1].
      destruct (deliver json_loads emit_other w msg) as [[w1 eff] weff].
      simpl in *. destruct (IH w1 Hwf1) as [Hwf2 Hcount2].
      destruct (watched_run json_loads emit_other w1 ks) as [w2 weff2].
      simpl in *. split; [done|].
      rewrite updates_app, length_app. lia.
Qed.

Lemma every_refresh_updates_once_witness :
  length (updates
            (watched_run loads_atoms (λ _, None) (Watched fresh_tab [])
               [Refresh "_workspace_data_0a1b2c3d" (Some "m1");
                Refresh "_workspace_data_1b2c3d4e" None;
                Deliver (stream_msg "m1" "{}");
                Deliver (idle_msg "m1")]).2)
  + length (awaiting
              (watched_run loads_atoms (λ _, None) (Watched fresh_tab [])
                 [Refresh "_workspace_data_0a1b2c3d" (Some "m1");
                  Refresh "_workspace_data_1b2c3d4e" None;
                  Deliver (stream_msg "m1" "{}");
                  Deliver (idle_msg "m1")]).1)
  = 2.
Proof.
  apply (every_refresh_updates_once loads_atoms (λ _, None)
           (Watched fresh_tab [])).
  split; [constructor|]. intros f Hf. by apply elem_of_nil in Hf.
Defined.

(** X22. [update_workspace] on a tab whose kernel client answers with no id
    emits [workspace_updated] at once, with the [None] of the future or,
    if the signal refuses it, with [{}]; when the request is sent it emits
    nothing yet. *)
Theorem refresh_without_dispatch emit_other self result_var reply :
  (opt_truthy reply = false →
   updates (update_workspace emit_other self result_var reply).2 = [PNone] ∨
   updates (update_workspace emit_other self result_var reply).2
     = [PDict []]) ∧
  (opt_truthy reply = true →
   (update_workspace emit_other self result_var reply).2 = []).
Proof.
  unfold update_workspace, get_workspace_async.
  pose proof (execute_and_get_future_tracking self
                (Workspace_query result_var) reply) as H.
  assert ((execute_and_get_future self (Workspace_query result_var)
             reply).1.2 = length (futures self)) as Hfut.
  { unfold execute_and_get_future, execute_silently. simpl.
    by destruct (opt_truthy reply). }
  destruct (execute_and_get_future _ _ _) as [[self1 fut] eff].
  simpl in *. subst fut.
  destruct (opt_truthy reply); destruct H as (_ & _ & _ & Hf);
    unfold done; rewrite Hf, lookup_app_r, Nat.sub_diag by done; simpl.
  - done.
  - split; [|done]. intros _. destruct (emit_other PNone); auto.
Qed.

(** * Further properties of the workspace snippet *)

Module SnippetFacts.
Import Workspace.

Section Visit.

Variable slice_concat : pyval → raises pyval.
Variable result_var : string.




End Visit.









End SnippetFacts.
